(** * IAM access review Lambda: risk classification and alert suppression

    A shallow embedding of [Lambda/access_review.py].  The module's three
    boto3 clients ([iam], [s3], [sns]) and the wall clock are the only
    sources of effects; they are modelled by an explicit [world] that is
    threaded through a small state-and-exception monad, together with a
    trace of every request sent to a service.  Logging is not modelled. *)

From stdpp Require Import gmap strings list pretty.
From Stdlib Require Import ZArith Lia Ascii.

Set Warnings "-register-all".

Open Scope Z_scope.

(** ** Python values *)

(** [datetime] objects.  An aware datetime denotes an instant, kept as
    microseconds since 1970-01-01T00:00:00+00:00; a naive one carries the
    same count for its wall-clock fields and no [tzinfo]. *)
Inductive datetime :=
| Aware (us : Z)
| Naive (us : Z).

(** What [json.loads] can return. *)
Inductive json :=
| JNull
| JBool (b : bool)
| JInt (n : Z)
| JStr (s : string)
| JArr (items : list json)
| JObj (fields : list (string * json)).

(** The exceptions that can travel through the module. *)
Inductive exn :=
| NoSuchKey          (* s3.exceptions.NoSuchKey *)
| ClientError        (* any other failure reported by a boto3 client *)
| JSONDecodeError
| KeyError
| TypeError
| ValueError.

Inductive outcome (A : Type) :=
| Return (a : A)
| Raise (e : exn).
Arguments Return {A} a.
Arguments Raise {A} e.

(** The body of an S3 object.  [BJson v] is a text that [json.loads]
    decodes to [v] (the text [json.dumps(v)] among them); [BText s] is the
    text [s], which is not a JSON document. *)
Inductive body :=
| BJson (v : json)
| BText (s : string).

(** One entry of [response["Users"]]. *)
Record user := {
  UserName : string;
  PasswordLastUsed : option datetime
}.

(** The dictionary returned by [iam.list_users()]. *)
Record list_users_response := {
  Users : option (list user)
}.

(** A request sent to one of the three services. *)
Inductive call :=
| ListUsers
| GetObject (Key : string)
| PutObject (Key : string) (Body : body)
| Publish (Subject Message : string).

(** The value returned by [lambda_handler]; [resp_body] is the dictionary
    handed to [json.dumps]. *)
Record response := {
  statusCode : Z;
  resp_body : json
}.

(** ** Library functions used by the module *)

Definition dquote : ascii := ascii_of_nat 34.
Definition CR : ascii := ascii_of_nat 13.
Definition LF : ascii := ascii_of_nat 10.
Definition comma : ascii := ascii_of_nat 44.

(** [sep.join(parts)] *)
Fixpoint join (sep : string) (parts : list string) : string :=
  match parts with
  | [] => ""
  | [p] => p
  | p :: rest => p +:+ sep +:+ join sep rest
  end.

(** [str(n)] and the [{n}] / [%d] formatting of an integer. *)
Definition str (n : Z) : string := pretty n.

(** [d[k]] on a decoded JSON dictionary. *)
Fixpoint dict_get (fields : list (string * json)) (k : string) : option json :=
  match fields with
  | [] => None
  | (k', v) :: rest => if String.eqb k' k then Some v else dict_get rest k
  end.

(** [data[k]] on an arbitrary decoded JSON value. *)
Definition getitem (data : json) (k : string) : outcome json :=
  match data with
  | JObj fields =>
      match dict_get fields k with
      | Some v => Return v
      | None => Raise KeyError
      end
  | _ => Raise TypeError
  end.

(** [json.loads(obj["Body"].read())] *)
Definition json_loads (b : body) : outcome json :=
  match b with
  | BJson v => Return v
  | BText _ => Raise JSONDecodeError
  end.

(** [json.dumps(v)] as an object body. *)
Definition json_dumps (v : json) : body := BJson v.

(** [severity != previous_severity] where the left operand is a [str]. *)
Definition str_ne (s : string) (v : json) : bool :=
  match v with
  | JStr t => negb (String.eqb s t)
  | _ => true
  end.

(** *** Calendar arithmetic of [datetime] *)

Definition US_PER_SECOND : Z := 1000000.
Definition US_PER_DAY : Z := 86400 * US_PER_SECOND.

(** [(a - b).days] for two instants: [timedelta] normalises so that the
    seconds and microseconds are non-negative, hence the floor. *)
Definition timedelta_days (a b : Z) : Z := (a - b) / US_PER_DAY.

(** Proleptic Gregorian date (year, month, day) of a day count since
    1970-01-01. *)
Definition civil_from_days (days : Z) : Z * Z * Z :=
  let z := days + 719468 in
  let era := z / 146097 in
  let doe := z - era * 146097 in
  let yoe := (doe - doe / 1460 + doe / 36524 - doe / 146096) / 365 in
  let doy := doe - (365 * yoe + yoe / 4 - yoe / 100) in
  let mp := (5 * doy + 2) / 153 in
  let d := doy - (153 * mp + 2) / 5 + 1 in
  let m := if mp <? 10 then mp + 3 else mp - 9 in
  let y := yoe + era * 400 + (if m <=? 2 then 1 else 0) in
  (y, m, d).

Definition digit (n : Z) : ascii := ascii_of_nat (48 + Z.to_nat (n mod 10)).

Definition pad2 (n : Z) : string :=
  String (digit (n / 10)) (String (digit n) "").

Definition pad4 (n : Z) : string :=
  String (digit (n / 1000)) (String (digit (n / 100)) (pad2 n)).

Definition pad6 (n : Z) : string :=
  String (digit (n / 100000)) (String (digit (n / 10000)) (pad4 n)).

(** [now.date().isoformat()] for a UTC instant: [YYYY-MM-DD]. *)
Definition date_isoformat (now : Z) : string :=
  let '(y, m, d) := civil_from_days (now / US_PER_DAY) in
  pad4 y +:+ "-" +:+ pad2 m +:+ "-" +:+ pad2 d.

(** [HH:MM:SS] followed by [.ffffff] when the microsecond is not zero. *)
Definition time_isoformat (now : Z) : string :=
  let us_of_day := now mod US_PER_DAY in
  let secs := us_of_day / US_PER_SECOND in
  let us := us_of_day mod US_PER_SECOND in
  pad2 (secs / 3600) +:+ ":" +:+ pad2 (secs / 60 mod 60) +:+ ":" +:+
  pad2 (secs mod 60) +:+
  (if us =? 0 then "" else "." +:+ pad6 us).

(** [datetime.now(timezone.utc).isoformat()] *)
Definition isoformat (now : Z) : string :=
  date_isoformat now +:+ "T" +:+ time_isoformat now +:+ "+00:00".

(** *** [csv.writer] with the default dialect *)

Definition needs_quoting (c : ascii) : bool :=
  Ascii.eqb c comma || Ascii.eqb c dquote || Ascii.eqb c CR || Ascii.eqb c LF.

Fixpoint has_special (s : string) : bool :=
  match s with
  | EmptyString => false
  | String c rest => needs_quoting c || has_special rest
  end.

Fixpoint double_quotes (s : string) : string :=
  match s with
  | EmptyString => EmptyString
  | String c rest =>
      if Ascii.eqb c dquote then String c (String c (double_quotes rest))
      else String c (double_quotes rest)
  end.

Definition csv_field (s : string) : string :=
  if has_special s
  then String dquote (double_quotes s) +:+ String dquote ""
  else s.

(** [writer.writerow(fields)] for a row of at least two fields: the text
    appended to the buffer. *)
Definition writerow (fields : list string) : string :=
  join "," (csv_field <$> fields) +:+ String CR (String LF "").

(** [writer.writerows(rows)] *)
Definition writerows (rows : list (list string)) : string :=
  String.concat "" (writerow <$> rows).

(** ** The world outside the function *)

(** Everything the run depends on and does not compute: the two mandatory
    environment variables, the optional [SUPPRESSION_DAYS] variable (its
    value read as an integer, when set), [datetime.fromisoformat], the
    successive readings of the clock, the reply of IAM, and which requests
    the services refuse.  [fault n c] tells whether request [c], sent when
    [n] requests have been sent before it, fails. *)
Record env := {
  REPORT_BUCKET : string;
  SNS_TOPIC : string;
  environ_SUPPRESSION_DAYS : option Z;
  fromisoformat : string -> option datetime;
  clock : nat -> Z;
  iam_reply : list_users_response;
  fault : nat -> call -> bool
}.

(** The mutable part: how often the clock has been read, the objects of
    the bucket [REPORT_BUCKET], and the requests sent so far, oldest
    first. *)
Record world := {
  ticks : nat;
  bucket : gmap string body;
  trace : list call
}.

(** Computations that read and change the world and may raise. *)
Definition M (A : Type) : Type := world -> outcome A * world.

Definition ret {A} (a : A) : M A := fun w => (Return a, w).

Definition bind {A B} (m : M A) (k : A -> M B) : M B :=
  fun w =>
    match m w with
    | (Return a, w') => k a w'
    | (Raise e, w') => (Raise e, w')
    end.

Definition lift {A} (o : outcome A) : M A := fun w => (o, w).

(** [try: m  except s3.exceptions.NoSuchKey: h] *)
Definition try_except_NoSuchKey {A} (m h : M A) : M A :=
  fun w =>
    match m w with
    | (Raise NoSuchKey, w') => h w'
    | r => r
    end.

Notation "x <- m ;; k" := (bind m (fun x => k))
  (at level 100, m at next level, right associativity).
Notation "m ;;; k" := (bind m (fun _ => k))
  (at level 100, right associativity).

(** The world after request [c] has been sent. *)
Definition sent (c : call) (w : world) : world :=
  {| ticks := ticks w; bucket := bucket w; trace := trace w ++ [c] |}.

(** The world after one more reading of the clock. *)
Definition tick (w : world) : world :=
  {| ticks := S (ticks w); bucket := bucket w; trace := trace w |}.

(** The world after an accepted [put_object]. *)
Definition stored (Key : string) (Body : body) (w : world) : world :=
  {| ticks := ticks w; bucket := <[Key := Body]> (bucket w);
     trace := trace w ++ [PutObject Key Body] |}.

(** ** The module [Lambda/access_review.py] *)

Section AccessReview.

Context (E : env).

(** *** The three clients and the clock *)

(** Sending a request: it is recorded, and the service may refuse it. *)
Definition request (c : call) : M unit :=
  fun w =>
    let w' := {| ticks := ticks w; bucket := bucket w;
                 trace := trace w ++ [c] |} in
    if fault E (length (trace w)) c
    then (Raise ClientError, w')
    else (Return tt, w').

(** [datetime.now(timezone.utc)], as an instant. *)
Definition datetime_now : M Z :=
  fun w =>
    (Return (clock E (ticks w)),
     {| ticks := S (ticks w); bucket := bucket w; trace := trace w |}).

(** [iam.list_users()] *)
Definition iam_list_users : M list_users_response :=
  request ListUsers ;;; ret (iam_reply E).

(** [s3.get_object(Bucket=REPORT_BUCKET, Key=Key)] *)
Definition s3_get_object (Key : string) : M body :=
  request (GetObject Key) ;;;
  fun w =>
    match bucket w !! Key with
    | Some b => (Return b, w)
    | None => (Raise NoSuchKey, w)
    end.

(** [s3.put_object(Bucket=REPORT_BUCKET, Key=Key, Body=Body)] *)
Definition s3_put_object (Key : string) (Body : body) : M unit :=
  request (PutObject Key Body) ;;;
  fun w =>
    (Return tt,
     {| ticks := ticks w; bucket := <[Key := Body]> (bucket w);
        trace := trace w |}).

(** [sns.publish(TopicArn=SNS_TOPIC, Subject=Subject, Message=Message)] *)
Definition sns_publish (Subject Message : string) : M unit :=
  request (Publish Subject Message).

(** [datetime.fromisoformat(v)] on a decoded JSON value. *)
Definition datetime_fromisoformat (v : json) : outcome datetime :=
  match v with
  | JStr s =>
      match fromisoformat E s with
      | Some d => Return d
      | None => Raise ValueError
      end
  | _ => Raise TypeError
  end.

(** [(now - last).days] where [now] is aware. *)
Definition days_since (now : Z) (last : datetime) : outcome Z :=
  match last with
  | Aware t => Return (timedelta_days now t)
  | Naive _ => Raise TypeError
  end.

(** *** Module constants *)

Definition SUPPRESSION_DAYS : Z := default 7 (environ_SUPPRESSION_DAYS E).

Definition ALERT_STATE_PREFIX : string := "alerts/".

(** *** Functions *)

Definition calculate_risk (days_unused : Z) : string * string :=
  if days_unused >=? 180 then ("HIGH", "🔴")
  else if days_unused >=? 90 then ("MEDIUM", "🟠")
  else ("LOW", "🟢").

Definition _alert_state_key (username : string) : string :=
  ALERT_STATE_PREFIX +:+ username +:+ ".json".

Definition should_alert (username severity : string) : M bool :=
  let key := _alert_state_key username in
  try_except_NoSuchKey
    (obj <- s3_get_object key ;;
     data <- lift (json_loads obj) ;;
     raw <- lift (getitem data "last_alerted") ;;
     last_alerted <- lift (datetime_fromisoformat raw) ;;
     previous_severity <- lift (getitem data "severity") ;;
     if str_ne severity previous_severity then ret true
     else
       now <- datetime_now ;;
       delta_days <- lift (days_since now last_alerted) ;;
       if delta_days >=? SUPPRESSION_DAYS then ret true
       else ret false)
    (ret true).

(** The dictionary that [save_alert_state] serialises. *)
Definition alert_record (now : Z) (severity : string) : json :=
  JObj [("last_alerted", JStr (isoformat now));
        ("severity", JStr severity)].

Definition save_alert_state (username severity : string) : M unit :=
  let key := _alert_state_key username in
  now <- datetime_now ;;
  let body := json_dumps (alert_record now severity) in
  s3_put_object key body.

(** The three lists filled by the loop of [lambda_handler]. *)
Record accumulators := {
  high : list string;
  medium : list string;
  report_rows : list (list string)
}.

(** Lines 122-131: the inactivity of one user, in days. *)
Definition days_unused_of (now : Z) (last_used : option datetime) : Z :=
  match last_used with
  | None => 999
  | Some last_used =>
      let last_used :=
        match last_used with
        | Naive us => us        (* replace(tzinfo=timezone.utc) *)
        | Aware us => us
        end in
      timedelta_days now last_used
  end.

Definition summary_line (username : string) (days_unused : Z)
    (emoji : string) : string :=
  "- " +:+ username +:+ " (" +:+ str days_unused +:+ " days unused) " +:+ emoji.

(** Lines 142-148: the three [append]s for an alerted user. *)
Definition append_alert (acc : accumulators) (username : string)
    (days_unused : Z) (severity emoji : string) : accumulators :=
  let rows := report_rows acc ++ [[username; str days_unused; severity]] in
  let line := summary_line username days_unused emoji in
  if String.eqb severity "HIGH"
  then {| high := high acc ++ [line]; medium := medium acc;
          report_rows := rows |}
  else {| high := high acc; medium := medium acc ++ [line];
          report_rows := rows |}.

(** One iteration of [for user in users]. *)
Definition review_user (now : Z) (u : user) (acc : accumulators)
    : M accumulators :=
  let username := UserName u in
  let days_unused := days_unused_of now (PasswordLastUsed u) in
  let '(severity, emoji) := calculate_risk days_unused in
  if String.eqb severity "LOW" then ret acc
  else
    alert <- should_alert username severity ;;
    if negb alert then ret acc
    else
      let acc' := append_alert acc username days_unused severity emoji in
      save_alert_state username severity ;;;
      ret acc'.

Fixpoint for_each_user (now : Z) (users : list user) (acc : accumulators)
    : M accumulators :=
  match users with
  | [] => ret acc
  | u :: rest =>
      acc' <- review_user now u acc ;;
      for_each_user now rest acc'
  end.

Definition csv_key (now : Z) : string :=
  "access_review_" +:+ date_isoformat now +:+ ".csv".

Definition csv_header : list string := ["Username"; "DaysUnused"; "Severity"].

(** [csv_buffer.getvalue()] after the header and the rows are written. *)
Definition csv_text (rows : list (list string)) : string :=
  writerow csv_header +:+ writerows rows.

Definition len (l : list string) : Z := Z.of_nat (length l).

Definition subject (high medium : list string) : string :=
  "🟠 IAM Access Review Summary – " +:+ str (len high) +:+ " High / " +:+
  str (len medium) +:+ " Medium Risks".

(** [lines or ["None"]] *)
Definition or_none (lines : list string) : list string :=
  match lines with
  | [] => ["None"]
  | _ => lines
  end.

Definition message_lines (now : Z) (high medium : list string) : list string :=
  ["AWS IAM Access Review – Summary";
   "";
   "Run Date: " +:+ date_isoformat now;
   "";
   "HIGH Risk Users (" +:+ str (len high) +:+ "):"] ++
  or_none high ++
  ["";
   "MEDIUM Risk Users (" +:+ str (len medium) +:+ "):"] ++
  or_none medium ++
  ["";
   "Recommended Actions:";
   "- Review unused access";
   "- Remove unnecessary permissions";
   "- Enforce least-privilege policies";
   "";
   "A detailed CSV report is available in S3:";
   "Bucket: " +:+ REPORT_BUCKET E;
   "Key: " +:+ csv_key now].

Definition message (now : Z) (high medium : list string) : string :=
  join (String LF "") (message_lines now high medium).

Definition result (now : Z) (high medium : list string) : response :=
  {| statusCode := 200;
     resp_body := JObj [("high_count", JInt (len high));
                        ("medium_count", JInt (len medium));
                        ("csv_key", JStr (csv_key now))] |}.

Definition no_rows : accumulators :=
  {| high := []; medium := []; report_rows := [] |}.

Definition lambda_handler : M response :=
  now <- datetime_now ;;
  response <- iam_list_users ;;
  let users := default [] (Users response) in
  acc <- for_each_user now users no_rows ;;
  s3_put_object (csv_key now) (BText (csv_text (report_rows acc))) ;;;
  sns_publish (subject (high acc) (medium acc))
              (message now (high acc) (medium acc)) ;;;
  ret (result now (high acc) (medium acc)).

End AccessReview.

(** ** A concrete environment

    Used to run the model: a parser for the timestamps that
    [save_alert_state] writes, a clock that advances by one second per
    reading, and a bucket built from a list of objects. *)

Module Sample.

Definition digit_val (c : ascii) : option Z :=
  let n := Z.of_nat (nat_of_ascii c) in
  if (48 <=? n) && (n <=? 57) then Some (n - 48) else None.

(** Reads exactly [k] decimal digits. *)
Fixpoint read_digits (k : nat) (value : Z) (s : string) : option (Z * string) :=
  match k with
  | O => Some (value, s)
  | S k' =>
      match s with
      | String c rest =>
          match digit_val c with
          | Some d => read_digits k' (10 * value + d) rest
          | None => None
          end
      | EmptyString => None
      end
  end.

Definition expect (c : ascii) (s : string) : option string :=
  match s with
  | String c' rest => if Ascii.eqb c c' then Some rest else None
  | EmptyString => None
  end.

Definition is_leap (y : Z) : bool :=
  (y mod 4 =? 0) && (negb (y mod 100 =? 0) || (y mod 400 =? 0)).

Definition days_in_month (y m : Z) : Z :=
  if m =? 2 then (if is_leap y then 29 else 28)
  else if (m =? 4) || (m =? 6) || (m =? 9) || (m =? 11) then 30
  else 31.

(** Day count since 1970-01-01 of a proleptic Gregorian date. *)
Definition days_from_civil (y m d : Z) : Z :=
  let y := if m <=? 2 then y - 1 else y in
  let era := y / 400 in
  let yoe := y - era * 400 in
  let doy := (153 * (if m >? 2 then m - 3 else m + 9) + 2) / 5 + d - 1 in
  let doe := yoe * 365 + yoe / 4 - yoe / 100 + doy in
  era * 146097 + doe - 719468.

(** Parses [YYYY-MM-DDTHH:MM:SS[.ffffff]] followed by [+00:00] or by
    nothing; every other text is rejected. *)
Definition parse_isoformat (s : string) : option datetime :=
  '(y, s) ← read_digits 4 0 s;
  s ← expect "-" s;
  '(m, s) ← read_digits 2 0 s;
  s ← expect "-" s;
  '(d, s) ← read_digits 2 0 s;
  s ← expect "T" s;
  '(hh, s) ← read_digits 2 0 s;
  s ← expect ":" s;
  '(mm, s) ← read_digits 2 0 s;
  s ← expect ":" s;
  '(ss, s) ← read_digits 2 0 s;
  '(us, s) ← match expect "." s with
              | Some s' => read_digits 6 0 s'
              | None => Some (0, s)
              end;
  if (1 <=? y) && (1 <=? m) && (m <=? 12) && (1 <=? d) &&
     (d <=? days_in_month y m) && (hh <? 24) && (mm <? 60) && (ss <? 60)
  then
    let t := days_from_civil y m d * US_PER_DAY +
             ((hh * 60 + mm) * 60 + ss) * US_PER_SECOND + us in
    if String.eqb s "+00:00" then Some (Aware t)
    else if String.eqb s "" then Some (Naive t)
    else None
  else None.

(** 2026-11-04T00:00:00+00:00, the scheduled start of a daily run. *)
Definition T0 : Z := 1793750400000000.

Definition DAY : Z := US_PER_DAY.

Definition no_fault : nat -> call -> bool := fun _ _ => false.

Definition sample_env (start : Z) (users : list user)
    (faults : nat -> call -> bool) : env :=
  {| REPORT_BUCKET := "access-report-bucket";
     SNS_TOPIC := "arn:aws:sns:eu-west-1:123456789012:IAMAlertTopic";
     environ_SUPPRESSION_DAYS := Some 7;
     fromisoformat := parse_isoformat;
     clock := fun n => start + Z.of_nat n * US_PER_SECOND;
     iam_reply := {| Users := Some users |};
     fault := faults |}.

Definition initial (objects : list (string * body)) : world :=
  {| ticks := 0; bucket := list_to_map objects; trace := [] |}.

Definition alert_state (last_alerted : Z) (severity : string) : body :=
  BJson (JObj [("last_alerted", JStr (isoformat last_alerted));
               ("severity", JStr severity)]).

Definition used (name : string) (last_used : Z) : user :=
  {| UserName := name; PasswordLastUsed := Some (Aware last_used) |}.

Definition never_used (name : string) : user :=
  {| UserName := name; PasswordLastUsed := None |}.

(** Four users: unused for 200, 95 and 30 days, and never used. *)
Definition alice : user := used "alice" (T0 - 200 * DAY).
Definition bob : user := used "bob" (T0 - 95 * DAY).
Definition carol : user := used "carol" (T0 - 30 * DAY).
Definition dave : user := never_used "dave".

Definition eve : user := used "eve" (T0 + US_PER_SECOND).
Definition mallory : user := used "mallory" (T0 - 120 * DAY).

(** The daily run of 2026-11-04 over the given users, without faults. *)
Definition daily (users : list user) : env := sample_env T0 users no_fault.

(** The service refuses the lookup of the state of [bob]. *)
Definition bob_refused : nat -> call -> bool :=
  fun _ c =>
    match c with
    | GetObject k => String.eqb k "alerts/bob.json"
    | _ => false
    end.

(** Two consecutive daily runs over [alice] and [bob]; on the first day
    the lookup for [bob] is refused. *)
Definition first_day : env := sample_env T0 [alice; bob] bob_refused.
Definition second_day : env := sample_env (T0 + DAY) [alice; bob] no_fault.

(** A bucket in which the state of [mallory] is not a JSON document. *)
Definition corrupt : world := initial [("alerts/mallory.json", BText "{")].

(** A bucket that holds one alert state, of [bob]. *)
Definition bob_alerted (days_ago : Z) (severity : string) : world :=
  initial [("alerts/bob.json", alert_state (T0 - days_ago * DAY) severity)].

(** SNS refuses the summary. *)
Definition publish_refused : nat -> call -> bool :=
  fun _ c =>
    match c with
    | Publish _ _ => true
    | _ => false
    end.

(** IAM refuses the listing. *)
Definition iam_down : nat -> call -> bool :=
  fun _ c =>
    match c with
    | ListUsers => true
    | _ => false
    end.

(** A reply of IAM without the key Users. *)
Definition no_users_key : env :=
  {| REPORT_BUCKET := "access-report-bucket";
     SNS_TOPIC := "arn:aws:sns:eu-west-1:123456789012:IAMAlertTopic";
     environ_SUPPRESSION_DAYS := None;
     fromisoformat := parse_isoformat;
     clock := fun n => T0 + Z.of_nat n * US_PER_SECOND;
     iam_reply := {| Users := None |};
     fault := no_fault |}.

(** A run during which the clock shows the same instant at every
    reading. *)
Definition frozen (users : list user) : env :=
  {| REPORT_BUCKET := "access-report-bucket";
     SNS_TOPIC := "arn:aws:sns:eu-west-1:123456789012:IAMAlertTopic";
     environ_SUPPRESSION_DAYS := Some 7;
     fromisoformat := parse_isoformat;
     clock := fun _ => T0;
     iam_reply := {| Users := Some users |};
     fault := no_fault |}.

(** A bucket in which the state of [bob] has a timestamp without
    offset. *)
Definition naive_state : world :=
  initial [("alerts/bob.json",
            BJson (JObj [("last_alerted", JStr "2026-11-01T00:00:00");
                         ("severity", JStr "MEDIUM")]))].

End Sample.

(** ** Notions used in the statements *)

Definition severity_of (now : Z) (u : user) : string :=
  (calculate_risk (days_unused_of now (PasswordLastUsed u))).1.

Definition emoji_of (now : Z) (u : user) : string :=
  (calculate_risk (days_unused_of now (PasswordLastUsed u))).2.

(** The report row and the summary line that an alert for [u] appends. *)
Definition row_of (now : Z) (u : user) : list string :=
  [UserName u; str (days_unused_of now (PasswordLastUsed u)); severity_of now u].

Definition line_of (now : Z) (u : user) : string :=
  summary_line (UserName u) (days_unused_of now (PasswordLastUsed u))
    (emoji_of now u).

Definition state_key_of (u : user) : string := _alert_state_key (UserName u).

(** [row[2]], the severity column of a report row. *)
Definition row_severity (row : list string) : string := nth 2 row "".

Definition count_severity (severity : string) (rows : list (list string)) : nat :=
  length (filter (fun row => row_severity row = severity) rows).

(** Requests about the alert state of some account. *)
Definition is_state_call (c : call) : Prop :=
  match c with
  | GetObject k | PutObject k _ => exists name, k = _alert_state_key name
  | _ => False
  end.

(** The writes asked for by a sequence of requests, in order, whether
    the service accepted them or not. *)
Fixpoint puts (calls : list call) : list (string * body) :=
  match calls with
  | [] => []
  | PutObject k b :: rest => (k, b) :: puts rest
  | _ :: rest => puts rest
  end.

(** [p] is a write of the alert state of [u]: under the key of [u], the
    record of some instant and of the severity computed for [u]. *)
Definition saves_state_of (now : Z) (u : user) (p : string * body) : Prop :=
  p.1 = state_key_of u /\
  exists t, p.2 = json_dumps (alert_record t (severity_of now u)).

(** Lines 54-57: what [should_alert] extracts from a stored body. *)
Definition read_state (fromisoformat : string -> option datetime) (b : body)
    : outcome (datetime * json) :=
  match json_loads b with
  | Raise e => Raise e
  | Return data =>
      match getitem data "last_alerted" with
      | Raise e => Raise e
      | Return raw =>
          match raw with
          | JStr s =>
              match fromisoformat s with
              | None => Raise ValueError
              | Some last_alerted =>
                  match getitem data "severity" with
                  | Raise e => Raise e
                  | Return previous => Return (last_alerted, previous)
                  end
              end
          | _ => Raise TypeError
          end
      end
  end.

(** The number of notifications in a sequence of requests. *)
Fixpoint publish_count (calls : list call) : nat :=
  match calls with
  | [] => O
  | Publish _ _ :: rest => S (publish_count rest)
  | _ :: rest => publish_count rest
  end.

(** The order of the three severities, LOW below MEDIUM below HIGH. *)
Definition severity_rank (severity : string) : nat :=
  if String.eqb severity "HIGH" then 2
  else if String.eqb severity "MEDIUM" then 1
  else 0.

(** The bucket [m'] comes from [m] by writes under keys in [P] only:
    every other key holds what it held, and no key is lost. *)
Definition only_writes (P : string -> Prop) (m m' : gmap string body) : Prop :=
  forall k,
    (~ P k -> m' !! k = m !! k) /\
    (is_Some (m !! k) -> is_Some (m' !! k)).

(** A stored body from which lines 54-57 get an aware instant. *)
Definition readable_state (fromisoformat : string -> option datetime)
    (b : body) : Prop :=
  exists t previous, read_state fromisoformat b = Return (Aware t, previous).

(** Every alert state of the bucket can be read. *)
Definition states_readable (fromisoformat : string -> option datetime)
    (m : gmap string body) : Prop :=
  forall name b,
    m !! _alert_state_key name = Some b -> readable_state fromisoformat b.

(** From [w] to [w'] requests have been sent, and none was refused. *)
Definition all_accepted (fault : nat -> call -> bool) (w w' : world) : Prop :=
  exists calls,
    trace w' = trace w ++ calls /\
    forall i c, calls !! i = Some c ->
                fault (length (trace w) + i)%nat c = false.

(** The number of listed users that are not LOW: the number of
    decisions that a run takes. *)
Definition decisions (now : Z) (users : list user) : nat :=
  length (filter (fun u => severity_of now u <> "LOW") users).

(** The bucket [m] holds for [u] a state with the severity computed for
    [u] and a time from which none of the readings of the clock numbered
    [first] up to, and without, [last] is a full suppression window
    away. *)
Definition recently_alerted (E : env) (now : Z) (first last : nat)
    (m : gmap string body) (u : user) : Prop :=
  exists b t,
    m !! state_key_of u = Some b /\
    read_state (fromisoformat E) b = Return (Aware t, JStr (severity_of now u)) /\
    forall n, (first <= n < last)%nat ->
              (clock E n - t) / US_PER_DAY < SUPPRESSION_DAYS E.

(** Unfolds the monad and the requests of the two functions that talk
    to S3. *)
Ltac run_monad :=
  unfold should_alert, save_alert_state, s3_get_object, s3_put_object,
    sns_publish, iam_list_users, datetime_now, request,
    try_except_NoSuchKey, bind, ret, lift; cbn.

(** ** Properties *)

Section Properties.

Context (E : env).

(** *** The risk classifier *)

Lemma calculate_risk_high (d : Z) :
  180 <= d -> calculate_risk d = ("HIGH", "🔴").
Proof.
  intros Hd. unfold calculate_risk.
  destruct (Z.geb_spec d 180) as [_|Hlt]; [reflexivity | lia].
Qed.

Lemma calculate_risk_medium (d : Z) :
  90 <= d < 180 -> calculate_risk d = ("MEDIUM", "🟠").
Proof.
  intros Hd. unfold calculate_risk.
  destruct (Z.geb_spec d 180) as [Hge|_]; [lia|].
  destruct (Z.geb_spec d 90) as [_|Hlt]; [reflexivity | lia].
Qed.

Lemma calculate_risk_low (d : Z) :
  d < 90 -> calculate_risk d = ("LOW", "🟢").
Proof.
  intros Hd. unfold calculate_risk.
  destruct (Z.geb_spec d 180) as [Hge|_]; [lia|].
  destruct (Z.geb_spec d 90) as [Hge|_]; [lia | reflexivity].
Qed.

(** The severity is LOW exactly below 90 days. *)
Lemma calculate_risk_low_iff (d : Z) :
  (calculate_risk d).1 = "LOW" <-> d < 90.
Proof.
  split.
  - intros Hlow. destruct (Z.lt_ge_cases d 90) as [Hd|Hd]; [exact Hd|].
    destruct (Z.lt_ge_cases d 180) as [Hd'|Hd'].
    + rewrite calculate_risk_medium in Hlow by lia. discriminate Hlow.
    + rewrite calculate_risk_high in Hlow by lia. discriminate Hlow.
  - intros Hd. rewrite calculate_risk_low by exact Hd. reflexivity.
Qed.

(** C2: for every non-negative number of days [d], the classifier gives
    LOW when [d < 90], MEDIUM when [90 <= d < 180] and HIGH when
    [d >= 180]; at the boundaries, 89 is LOW, 90 and 179 are MEDIUM and
    180 is HIGH. *)
Theorem calculate_risk_thresholds (d : Z) :
  0 <= d ->
  (d < 90 -> (calculate_risk d).1 = "LOW") /\
  (90 <= d < 180 -> (calculate_risk d).1 = "MEDIUM") /\
  (180 <= d -> (calculate_risk d).1 = "HIGH") /\
  (calculate_risk 89).1 = "LOW" /\
  (calculate_risk 90).1 = "MEDIUM" /\
  (calculate_risk 179).1 = "MEDIUM" /\
  (calculate_risk 180).1 = "HIGH".
Proof.
  intros _. repeat split; try reflexivity.
  - intros Hd. rewrite calculate_risk_low by exact Hd. reflexivity.
  - intros Hd. rewrite calculate_risk_medium by exact Hd. reflexivity.
  - intros Hd. rewrite calculate_risk_high by exact Hd. reflexivity.
Qed.

(** C5: an account record without last-active timestamp gets the
    sentinel inactivity of 999 days and is classified HIGH, whatever the
    current time. *)
Theorem never_used_is_high (now : Z) (u : user) :
  PasswordLastUsed u = None ->
  days_unused_of now (PasswordLastUsed u) = 999 /\
  (calculate_risk (days_unused_of now (PasswordLastUsed u))).1 = "HIGH".
Proof.
  intros Hnone. rewrite Hnone. split; reflexivity.
Qed.

(** *** The suppression decision *)

(** The decision sends exactly one request, the lookup of the account's
    state, and leaves the bucket as it is. *)
Lemma should_alert_effect (username severity : string) (w w' : world)
    (r : outcome bool) :
  should_alert E username severity w = (r, w') ->
  trace w' = trace w ++ [GetObject (_alert_state_key username)] /\
  bucket w' = bucket w.
Proof.
  run_monad. intros Hrun.
  repeat (case_match; simplify_eq; cbn in *; try done).
Qed.

(** C1: the suppression decision, when the lookup of the account's state
    is answered.  Without stored state the decision is to emit.  With a
    stored severity that differs from the computed one it is to emit,
    whatever the stored time.  With the same severity it is to emit exactly
    when the whole days elapsed since the stored instant reach the
    suppression window, which is 7 days unless configured. *)
Theorem should_alert_decision (username severity : string) (w : world) :
  let key := _alert_state_key username in
  fault E (length (trace w)) (GetObject key) = false ->
  (bucket w !! key = None ->
   should_alert E username severity w = (Return true, sent (GetObject key) w)) /\
  (forall fields stamp last previous,
     bucket w !! key = Some (BJson (JObj fields)) ->
     dict_get fields "last_alerted" = Some (JStr stamp) ->
     fromisoformat E stamp = Some last ->
     dict_get fields "severity" = Some previous ->
     previous <> JStr severity ->
     should_alert E username severity w =
       (Return true, sent (GetObject key) w)) /\
  (forall fields stamp last,
     bucket w !! key = Some (BJson (JObj fields)) ->
     dict_get fields "last_alerted" = Some (JStr stamp) ->
     fromisoformat E stamp = Some (Aware last) ->
     dict_get fields "severity" = Some (JStr severity) ->
     should_alert E username severity w =
       (Return (bool_decide
                  (SUPPRESSION_DAYS E <= (clock E (ticks w) - last) / US_PER_DAY)),
        tick (sent (GetObject key) w))) /\
  (environ_SUPPRESSION_DAYS E = None -> SUPPRESSION_DAYS E = 7).
Proof.
  intros key Hok. repeat split.
  - intros Hnone. run_monad. fold key. rewrite Hok. cbn. rewrite Hnone.
    reflexivity.
  - intros fields stamp last previous Hobj Hstamp Hparse Hprev Hne.
    run_monad. fold key. rewrite Hok. cbn. rewrite Hobj. cbn.
    rewrite Hstamp. cbn. rewrite Hparse. cbn. rewrite Hprev. cbn.
    assert (str_ne severity previous = true) as ->.
    { destruct previous; try reflexivity. cbn.
      destruct (String.eqb_spec severity s); [congruence | reflexivity]. }
    reflexivity.
  - intros fields stamp last Hobj Hstamp Hparse Hprev.
    run_monad. fold key. rewrite Hok. cbn. rewrite Hobj. cbn.
    rewrite Hstamp. cbn. rewrite Hparse. cbn. rewrite Hprev. cbn.
    rewrite String.eqb_refl. cbn. unfold timedelta_days.
    destruct (Z.geb_spec ((clock E (ticks w) - last) / US_PER_DAY)
                (SUPPRESSION_DAYS E)) as [Hge|Hlt].
    + rewrite bool_decide_eq_true_2 by lia. reflexivity.
    + rewrite bool_decide_eq_false_2 by lia. reflexivity.
  - intros Hunset. unfold SUPPRESSION_DAYS. rewrite Hunset. reflexivity.
Qed.

(** *** One iteration of the loop *)

Lemma puts_app (a b : list call) :
  puts (a ++ b) = puts a ++ puts b.
Proof.
  induction a as [|c a IH]; [reflexivity|].
  destruct c; cbn; rewrite IH; reflexivity.
Qed.

Lemma publish_count_app (a b : list call) :
  publish_count (a ++ b) = (publish_count a + publish_count b)%nat.
Proof.
  induction a as [|c a IH]; [reflexivity|].
  destruct c; cbn; rewrite IH; reflexivity.
Qed.

Lemma state_calls_no_publish (calls : list call) :
  Forall is_state_call calls -> publish_count calls = O.
Proof.
  induction 1 as [|c calls Hc _ IH]; [reflexivity|].
  destruct c; cbn in *; try contradiction; exact IH.
Qed.

(** What [save_alert_state] does: one reading of the clock, one write. *)
Lemma save_alert_state_run (username severity : string) (w : world) :
  let key := _alert_state_key username in
  let b := json_dumps (alert_record (clock E (ticks w)) severity) in
  save_alert_state E username severity w =
    if fault E (length (trace w)) (PutObject key b)
    then (Raise ClientError, sent (PutObject key b) (tick w))
    else (Return tt, stored key b (tick w)).
Proof.
  run_monad. destruct (fault E _ _); reflexivity.
Qed.

(** A user classified LOW is passed over: nothing is read, written or
    appended. *)
Lemma review_user_low (now : Z) (u : user) (acc : accumulators) (w : world) :
  severity_of now u = "LOW" ->
  review_user E now u acc w = (Return acc, w).
Proof.
  unfold severity_of, review_user. intros Hlow.
  destruct (calculate_risk _) as [severity emoji]. cbn in Hlow. subst severity.
  reflexivity.
Qed.

(** A user that is not LOW: the decision is taken, and an alert is
    recorded and its state saved when the decision is to emit. *)
Lemma review_user_not_low (now : Z) (u : user) (acc : accumulators) (w : world) :
  severity_of now u <> "LOW" ->
  review_user E now u acc w =
    match should_alert E (UserName u) (severity_of now u) w with
    | (Return true, w1) =>
        match save_alert_state E (UserName u) (severity_of now u) w1 with
        | (Return _, w2) =>
            (Return (append_alert acc (UserName u)
                       (days_unused_of now (PasswordLastUsed u))
                       (severity_of now u) (emoji_of now u)), w2)
        | (Raise e, w2) => (Raise e, w2)
        end
    | (Return false, w1) => (Return acc, w1)
    | (Raise e, w1) => (Raise e, w1)
    end.
Proof.
  unfold severity_of, emoji_of, review_user. intros Hsev.
  destruct (calculate_risk _) as [severity emoji]. cbn in *.
  destruct (String.eqb_spec severity "LOW") as [->|_]; [congruence|].
  unfold bind at 1.
  destruct (should_alert E (UserName u) severity w) as [[[|]|e] w1];
    cbn; reflexivity.
Qed.

Lemma review_user_Return (now : Z) (u : user) (acc acc' : accumulators)
    (w w' : world) :
  review_user E now u acc w = (Return acc', w') ->
  exists calls,
    trace w' = trace w ++ calls /\
    Forall is_state_call calls /\
    ((acc' = acc /\ puts calls = []) \/
     (severity_of now u <> "LOW" /\
      acc' = append_alert acc (UserName u)
               (days_unused_of now (PasswordLastUsed u))
               (severity_of now u) (emoji_of now u) /\
      exists p, puts calls = [p] /\ saves_state_of now u p)).
Proof.
  destruct (decide (severity_of now u = "LOW")) as [Hlow|Hsev].
  - rewrite review_user_low by exact Hlow. intros [= <- <-].
    exists []. rewrite app_nil_r. auto.
  - rewrite review_user_not_low by exact Hsev.
    destruct (should_alert E _ _ w) as [[[|]|e] w1] eqn:Hdecide;
      [| |discriminate].
    + apply should_alert_effect in Hdecide as [Htr _].
      rewrite save_alert_state_run.
      destruct (fault E _ _); [discriminate|]. intros [= <- <-].
      eexists [GetObject _; PutObject _ _]. cbn. rewrite Htr, <- app_assoc.
      split; [reflexivity|]. split.
      * repeat constructor; eexists; reflexivity.
      * right. repeat split; [assumption|].
        eexists. split; [reflexivity|]. split; [reflexivity|].
        eexists. reflexivity.
    + apply should_alert_effect in Hdecide as [Htr _].
      intros [= <- <-]. eexists [GetObject _]. split; [exact Htr|]. split.
      * repeat constructor. eexists; reflexivity.
      * left. auto.
Qed.

(** *** The loop over the users *)

Lemma append_alert_rows (acc : accumulators) (now : Z) (u : user) :
  report_rows (append_alert acc (UserName u)
                 (days_unused_of now (PasswordLastUsed u))
                 (severity_of now u) (emoji_of now u)) =
  report_rows acc ++ [row_of now u].
Proof.
  unfold append_alert. destruct (String.eqb _ "HIGH"); reflexivity.
Qed.

Lemma append_alert_high (acc : accumulators) (now : Z) (u : user) :
  high (append_alert acc (UserName u)
          (days_unused_of now (PasswordLastUsed u))
          (severity_of now u) (emoji_of now u)) =
  high acc ++ (line_of now <$> filter (fun v => severity_of now v = "HIGH") [u]).
Proof.
  unfold append_alert. rewrite filter_cons, filter_nil.
  destruct (String.eqb_spec (severity_of now u) "HIGH") as [Heq|Hne].
  - rewrite decide_True by exact Heq. reflexivity.
  - rewrite decide_False by exact Hne. cbn. rewrite app_nil_r. reflexivity.
Qed.

Lemma append_alert_medium (acc : accumulators) (now : Z) (u : user) :
  medium (append_alert acc (UserName u)
            (days_unused_of now (PasswordLastUsed u))
            (severity_of now u) (emoji_of now u)) =
  medium acc ++ (line_of now <$> filter (fun v => severity_of now v <> "HIGH") [u]).
Proof.
  unfold append_alert. rewrite filter_cons, filter_nil.
  destruct (String.eqb_spec (severity_of now u) "HIGH") as [Heq|Hne].
  - rewrite decide_False by (intros Hc; exact (Hc Heq)).
    cbn. rewrite app_nil_r. reflexivity.
  - rewrite decide_True by exact Hne. reflexivity.
Qed.

(** A loop that runs to its end has alerted a sub-sequence of the users,
    none of them LOW; these users, in order, account for every appended
    row and line and for every write, and the loop has sent nothing but
    requests about alert states. *)
Lemma for_each_user_alerted (now : Z) (users : list user) :
  forall (acc acc' : accumulators) (w w' : world),
    for_each_user E now users acc w = (Return acc', w') ->
    exists (alerted : list user) (calls : list call),
      alerted `sublist_of` users /\
      Forall (fun u => severity_of now u <> "LOW") alerted /\
      report_rows acc' = report_rows acc ++ (row_of now <$> alerted) /\
      high acc' =
        high acc ++
        (line_of now <$> filter (fun u => severity_of now u = "HIGH") alerted) /\
      medium acc' =
        medium acc ++
        (line_of now <$> filter (fun u => severity_of now u <> "HIGH") alerted) /\
      trace w' = trace w ++ calls /\
      Forall is_state_call calls /\
      Forall2 (saves_state_of now) alerted (puts calls).
Proof.
  induction users as [|u rest IH]; intros acc acc' w w'.
  - cbn. intros [= <- <-]. exists [], []. cbn. rewrite !app_nil_r.
    repeat split; constructor.
  - cbn. unfold bind at 1.
    destruct (review_user E now u acc w) as [[acc1|e] w1] eqn:Hstep;
      [|discriminate].
    intros Hrest.
    apply review_user_Return in Hstep as (calls1 & Htr1 & Hst1 & Hcase).
    apply IH in Hrest
      as (alerted & calls & Hsub & Hsev & Hrows & Hhigh & Hmed & Htr & Hst & Hputs).
    destruct Hcase as [[-> Hp1]|(Hu & -> & p & Hp1 & Hp)].
    + exists alerted, (calls1 ++ calls).
      rewrite puts_app, Hp1, Htr, Htr1, <- app_assoc.
      repeat split; try done.
      * apply sublist_cons. exact Hsub.
      * apply Forall_app. auto.
    + exists (u :: alerted), (calls1 ++ calls).
      rewrite puts_app, Hp1, Htr, Htr1, <- app_assoc.
      rewrite append_alert_rows in Hrows.
      rewrite append_alert_high in Hhigh.
      rewrite append_alert_medium in Hmed.
      rewrite Hrows, Hhigh, Hmed, <- !app_assoc, <- !fmap_app.
      rewrite <- !filter_app. cbn [app].
      repeat split; try done.
      * apply sublist_skip. exact Hsub.
      * constructor; assumption.
      * apply Forall_app. auto.
      * cbn. constructor; assumption.
Qed.

(** An exception in one iteration ends the loop there: the users that
    follow are not looked at. *)
Lemma for_each_user_raise (now : Z) (before : list user) (u : user)
    (after : list user) :
  forall (acc acc1 : accumulators) (w w1 w2 : world) (e : exn),
    for_each_user E now before acc w = (Return acc1, w1) ->
    review_user E now u acc1 w1 = (Raise e, w2) ->
    for_each_user E now (before ++ u :: after) acc w = (Raise e, w2).
Proof.
  induction before as [|v before IH]; intros acc acc1 w w1 w2 e.
  - cbn. intros [= <- <-] Hraise. unfold bind. rewrite Hraise. reflexivity.
  - cbn [for_each_user app]. intros Hbefore Hraise.
    unfold bind in Hbefore. unfold bind.
    destruct (review_user E now v acc w) as [[acc0|e0] w0]; [|discriminate].
    eapply IH; eassumption.
Qed.

(** *** The handler *)

Lemma state_key_not_csv_key (name : string) (now : Z) :
  _alert_state_key name <> csv_key now.
Proof.
  unfold _alert_state_key, csv_key, ALERT_STATE_PREFIX.
  generalize (date_isoformat now +:+ ".csv") (name +:+ ".json").
  intros s1 s2 Heq. discriminate Heq.
Qed.

(** A run that returns: the clock is read, the users are listed, the loop
    runs to its end, the report is written and the summary published. *)
Lemma lambda_handler_Return (w w' : world) (r : response) :
  lambda_handler E w = (Return r, w') ->
  let now := clock E (ticks w) in
  exists (acc : accumulators) (w1 : world),
    for_each_user E now (default [] (Users (iam_reply E))) no_rows
      (sent ListUsers (tick w)) = (Return acc, w1) /\
    r = result now (high acc) (medium acc) /\
    w' = sent (Publish (subject (high acc) (medium acc))
                 (message E now (high acc) (medium acc)))
           (stored (csv_key now) (BText (csv_text (report_rows acc))) w1).
Proof.
  unfold lambda_handler, iam_list_users, s3_put_object, sns_publish,
    datetime_now, request, bind, ret. cbn [ticks bucket trace].
  destruct (fault E (length (trace w)) ListUsers); [discriminate|].
  fold (tick w). fold (sent ListUsers (tick w)).
  destruct (for_each_user E _ _ no_rows _) as [[acc|e] w1] eqn:Hloop;
    [|discriminate].
  destruct (fault E (length (trace w1)) _); [discriminate|].
  cbn [ticks bucket trace].
  destruct (fault E _ _); [discriminate|].
  intros [= <- <-]. exists acc, w1. repeat split; reflexivity.
Qed.

(** A run stops at the first iteration that raises. *)
Lemma lambda_handler_raise (w w1 w2 : world) (before after : list user)
    (u : user) (acc1 : accumulators) (e : exn) :
  let now := clock E (ticks w) in
  fault E (length (trace w)) ListUsers = false ->
  Users (iam_reply E) = Some (before ++ u :: after) ->
  for_each_user E now before no_rows (sent ListUsers (tick w)) =
    (Return acc1, w1) ->
  review_user E now u acc1 w1 = (Raise e, w2) ->
  lambda_handler E w = (Raise e, w2).
Proof.
  intros now Hlist Husers Hbefore Hraise.
  unfold lambda_handler, iam_list_users, datetime_now, request, bind, ret.
  cbn [ticks bucket trace]. rewrite Hlist, Husers. cbn [default id].
  change {| ticks := S (ticks w); bucket := bucket w;
            trace := trace w ++ [ListUsers] |}
    with (sent ListUsers (tick w)).
  fold now.
  rewrite (for_each_user_raise now before u after _ _ _ _ _ _ Hbefore Hraise).
  reflexivity.
Qed.

(** *** Failures of the lookup *)

Lemma should_alert_refused (username severity : string) (w : world) :
  let key := _alert_state_key username in
  fault E (length (trace w)) (GetObject key) = true ->
  should_alert E username severity w =
    (Raise ClientError, sent (GetObject key) w).
Proof.
  intros key Hfault. run_monad. fold key. rewrite Hfault. reflexivity.
Qed.

Lemma should_alert_malformed (username severity : string) (w : world)
    (b : body) (e : exn) :
  let key := _alert_state_key username in
  fault E (length (trace w)) (GetObject key) = false ->
  bucket w !! key = Some b ->
  read_state (fromisoformat E) b = Raise e ->
  should_alert E username severity w = (Raise e, sent (GetObject key) w).
Proof.
  intros key Hok Hobj. run_monad. fold key. rewrite Hok. cbn.
  rewrite Hobj. unfold read_state, datetime_fromisoformat.
  destruct b as [data|text]; cbn; [|intros [= <-]; reflexivity].
  destruct (getitem data "last_alerted") as [raw|e1] eqn:Hraw; cbn.
  - destruct raw; cbn; try (intros [= <-]; reflexivity).
    destruct (fromisoformat E s); cbn; [|intros [= <-]; reflexivity].
    destruct (getitem data "severity") as [previous|e2] eqn:Hprev; cbn;
      [discriminate|].
    intros [= <-].
    destruct data; cbn in Hprev; try (injection Hprev as <-; reflexivity).
    destruct (dict_get fields "severity"); [discriminate|].
    injection Hprev as <-. reflexivity.
  - intros [= <-].
    destruct data; cbn in Hraw; try (injection Hraw as <-; reflexivity).
    destruct (dict_get fields "last_alerted"); [discriminate|].
    injection Hraw as <-. reflexivity.
Qed.

(** *** Counting rows *)

Lemma calculate_risk_cases (d : Z) :
  (calculate_risk d).1 = "LOW" \/ (calculate_risk d).1 = "MEDIUM" \/
  (calculate_risk d).1 = "HIGH".
Proof.
  destruct (Z.lt_ge_cases d 90).
  - left. rewrite calculate_risk_low by assumption. reflexivity.
  - destruct (Z.lt_ge_cases d 180).
    + right. left. rewrite calculate_risk_medium by lia. reflexivity.
    + right. right. rewrite calculate_risk_high by lia. reflexivity.
Qed.

Lemma severity_cases (now : Z) (u : user) :
  severity_of now u = "LOW" \/ severity_of now u = "MEDIUM" \/
  severity_of now u = "HIGH".
Proof. apply calculate_risk_cases. Qed.

Lemma alerted_counts (now : Z) (alerted : list user) :
  Forall (fun u => severity_of now u <> "LOW") alerted ->
  length (filter (fun u => severity_of now u = "HIGH") alerted) =
    count_severity "HIGH" (row_of now <$> alerted) /\
  length (filter (fun u => severity_of now u <> "HIGH") alerted) =
    count_severity "MEDIUM" (row_of now <$> alerted) /\
  Forall (fun row => row_severity row = "MEDIUM" \/ row_severity row = "HIGH")
    (row_of now <$> alerted).
Proof.
  unfold count_severity.
  induction 1 as [|u alerted Hu _ (IHh & IHm & IHall)]; [repeat split; constructor|].
  rewrite fmap_cons, !filter_cons.
  change (row_severity (row_of now u)) with (severity_of now u).
  destruct (severity_cases now u) as [Hs|[Hs|Hs]]; [contradiction| |];
    rewrite Hs; repeat case_decide; try discriminate; try congruence;
    cbn [length]; rewrite ?IHh, ?IHm; repeat split; try reflexivity;
    constructor; auto;
    change (row_severity (row_of now u)) with (severity_of now u); auto.
Qed.

(** *** Writes of any run *)

Lemma length_append (s t : string) :
  String.length (s +:+ t) = (String.length s + String.length t)%nat.
Proof.
  induction s as [|c s IH]; [reflexivity|].
  change (S (String.length (s +:+ t)) =
          S (String.length s + String.length t))%nat.
  rewrite IH. reflexivity.
Qed.

Lemma append_inv_tail (s1 s2 t : string) : s1 +:+ t = s2 +:+ t -> s1 = s2.
Proof.
  revert s2. induction s1 as [|c s1 IH]; intros [|c' s2] Heq.
  - reflexivity.
  - apply (f_equal String.length) in Heq.
    change (String.length t = S (String.length (s2 +:+ t))) in Heq.
    rewrite length_append in Heq. lia.
  - apply (f_equal String.length) in Heq.
    change (S (String.length (s1 +:+ t)) = String.length t) in Heq.
    rewrite length_append in Heq. lia.
  - change (String c (s1 +:+ t) = String c' (s2 +:+ t)) in Heq.
    injection Heq as -> Heq. f_equal. apply IH. exact Heq.
Qed.

Lemma _alert_state_key_inj (name1 name2 : string) :
  _alert_state_key name1 = _alert_state_key name2 -> name1 = name2.
Proof.
  unfold _alert_state_key, ALERT_STATE_PREFIX. intros Heq.
  apply String.app_inj in Heq. apply append_inv_tail in Heq. exact Heq.
Qed.

(** Whatever the outcome of an iteration, it sends at most one write,
    and that one is the alert state of its user, who is not LOW. *)
Lemma review_user_puts (now : Z) (u : user) (acc : accumulators)
    (w w' : world) (o : outcome accumulators) :
  review_user E now u acc w = (o, w') ->
  exists calls,
    trace w' = trace w ++ calls /\
    (puts calls = [] \/
     (severity_of now u <> "LOW" /\
      exists p, puts calls = [p] /\ saves_state_of now u p)).
Proof.
  destruct (decide (severity_of now u = "LOW")) as [Hlow|Hsev].
  - rewrite review_user_low by exact Hlow. intros [= <- <-].
    exists []. rewrite app_nil_r. auto.
  - rewrite review_user_not_low by exact Hsev.
    destruct (should_alert E _ _ w) as [[[|]|e] w1] eqn:Hdecide.
    + apply should_alert_effect in Hdecide as [Htr _].
      rewrite save_alert_state_run.
      destruct (fault E _ _); intros [= <- <-];
        (eexists [GetObject _; PutObject _ _]; cbn;
         rewrite Htr, <- app_assoc; split; [reflexivity|];
         right; split; [assumption|];
         eexists; split; [reflexivity|]; split; [reflexivity|];
         eexists; reflexivity).
    + apply should_alert_effect in Hdecide as [Htr _].
      intros [= <- <-]. eexists [GetObject _].
      split; [exact Htr|left; reflexivity].
    + apply should_alert_effect in Hdecide as [Htr _].
      intros [= <- <-]. eexists [GetObject _].
      split; [exact Htr|left; reflexivity].
Qed.

Lemma for_each_user_puts (now : Z) (users : list user) :
  forall (acc : accumulators) (w w' : world) (o : outcome accumulators),
    for_each_user E now users acc w = (o, w') ->
    exists calls,
      trace w' = trace w ++ calls /\
      Forall (fun p => exists u, u ∈ users /\ severity_of now u <> "LOW" /\
                                 saves_state_of now u p)
        (puts calls).
Proof.
  induction users as [|u rest IH]; intros acc w w' o.
  - cbn. intros [= <- <-]. exists []. rewrite app_nil_r. split; constructor.
  - cbn [for_each_user]. unfold bind.
    destruct (review_user E now u acc w) as [[acc1|e] w1] eqn:Hstep;
      intros Hrest;
      apply review_user_puts in Hstep as (calls1 & Htr1 & Hcase).
    + apply IH in Hrest as (calls & Htr & Hall).
      exists (calls1 ++ calls).
      rewrite Htr, Htr1, <- app_assoc, puts_app. split; [reflexivity|].
      apply Forall_app. split.
      * destruct Hcase as [->|(Hu & p & -> & Hp)]; [constructor|].
        repeat constructor. exists u. split; [left|auto].
      * eapply Forall_impl; [exact Hall|].
        intros p (v & Hv & Hrest'). exists v. split; [right; exact Hv|exact Hrest'].
    + injection Hrest as <- <-. exists calls1. split; [exact Htr1|].
      destruct Hcase as [->|(Hu & p & -> & Hp)]; [constructor|].
      repeat constructor. exists u. split; [left|auto].
Qed.

(** Whatever the outcome of a run, its writes are the report and alert
    states of listed users that are not LOW. *)
Lemma lambda_handler_puts (w w' : world) (o : outcome response) :
  lambda_handler E w = (o, w') ->
  let now := clock E (ticks w) in
  exists calls,
    trace w' = trace w ++ calls /\
    Forall (fun p =>
              p.1 = csv_key now \/
              exists u, u ∈ default [] (Users (iam_reply E)) /\
                        severity_of now u <> "LOW" /\ saves_state_of now u p)
      (puts calls).
Proof.
  unfold lambda_handler, iam_list_users, s3_put_object, sns_publish,
    datetime_now, request, bind, ret. cbn [ticks bucket trace].
  destruct (fault E (length (trace w)) ListUsers).
  { intros [= <- <-]. exists [ListUsers]. split; [reflexivity|constructor]. }
  destruct (for_each_user E _ _ no_rows _) as [[acc|e] w1] eqn:Hloop;
    apply for_each_user_puts in Hloop as (calls & Htr & Hall);
    cbn [trace] in Htr;
    assert (Forall (fun p =>
              p.1 = csv_key (clock E (ticks w)) \/
              exists u, u ∈ default [] (Users (iam_reply E)) /\
                        severity_of (clock E (ticks w)) u <> "LOW" /\
                        saves_state_of (clock E (ticks w)) u p)
              (puts calls)) as Hall'
      by (eapply Forall_impl; [exact Hall|]; intros p Hp; right; exact Hp).
  - destruct (fault E (length (trace w1)) _).
    + intros [= <- <-]. cbn [trace].
      exists ([ListUsers] ++ calls ++ [PutObject (csv_key (clock E (ticks w)))
                                         (BText (csv_text (report_rows acc)))]).
      rewrite Htr, <- !app_assoc. split; [reflexivity|].
      rewrite !puts_app. cbn. apply Forall_app. split; [exact Hall'|].
      repeat constructor.
    + cbn [ticks bucket trace].
      destruct (fault E _ _); intros [= <- <-]; cbn [trace];
        (exists ([ListUsers] ++ calls ++
                  [PutObject (csv_key (clock E (ticks w)))
                     (BText (csv_text (report_rows acc)));
                   Publish (subject (high acc) (medium acc))
                     (message E (clock E (ticks w)) (high acc) (medium acc))]));
        rewrite Htr, <- !app_assoc; (split; [reflexivity|]);
        rewrite !puts_app; cbn; (apply Forall_app; split; [exact Hall'|]);
        repeat constructor.
  - intros [= <- <-]. exists ([ListUsers] ++ calls).
    rewrite Htr, <- app_assoc. split; [reflexivity|exact Hall'].
Qed.

(** Names that are unique in a list determine the user. *)
Lemma unique_name (users : list user) (u v : user) :
  NoDup (UserName <$> users) ->
  u ∈ users -> v ∈ users -> UserName u = UserName v -> u = v.
Proof.
  induction users as [|x xs IH]; intros Hnodup Hu Hv Hname; [inversion Hu|].
  rewrite fmap_cons in Hnodup. apply NoDup_cons in Hnodup as [Hx Hxs].
  apply elem_of_cons in Hu as [->|Hu]; apply elem_of_cons in Hv as [->|Hv].
  - reflexivity.
  - exfalso. apply Hx. rewrite Hname. apply list_elem_of_fmap. eauto.
  - exfalso. apply Hx. rewrite <- Hname. apply list_elem_of_fmap. eauto.
  - apply IH; assumption.
Qed.

(** *** Completed runs *)

Lemma state_calls_puts (now : Z) (calls : list call) :
  Forall is_state_call calls ->
  filter (fun p => p.1 = csv_key now) (puts calls) = [].
Proof.
  induction 1 as [|c calls Hc _ IH]; [reflexivity|].
  destruct c; cbn in *; try contradiction; try exact IH.
  destruct Hc as [name ->].
  rewrite decide_False by apply state_key_not_csv_key. exact IH.
Qed.

(** The shape of a run that returns: the users alerted, the requests of
    the loop, and the two requests that end the run. *)
Lemma completed_run (w w' : world) (r : response) :
  lambda_handler E w = (Return r, w') ->
  let now := clock E (ticks w) in
  exists (alerted : list user) (acc : accumulators) (calls : list call),
    alerted `sublist_of` default [] (Users (iam_reply E)) /\
    Forall (fun u => severity_of now u <> "LOW") alerted /\
    report_rows acc = row_of now <$> alerted /\
    high acc =
      line_of now <$> filter (fun u => severity_of now u = "HIGH") alerted /\
    medium acc =
      line_of now <$> filter (fun u => severity_of now u <> "HIGH") alerted /\
    Forall is_state_call calls /\
    Forall2 (saves_state_of now) alerted (puts calls) /\
    r = result now (high acc) (medium acc) /\
    trace w' =
      trace w ++ [ListUsers] ++ calls ++
      [PutObject (csv_key now) (BText (csv_text (report_rows acc)));
       Publish (subject (high acc) (medium acc))
         (message E now (high acc) (medium acc))] /\
    bucket w' !! csv_key now = Some (BText (csv_text (report_rows acc))).
Proof.
  intros Hrun now.
  apply lambda_handler_Return in Hrun as (acc & w1 & Hloop & -> & ->).
  fold now in Hloop |- *.
  apply for_each_user_alerted in Hloop
    as (alerted & calls & Hsub & Hsev & Hrows & Hhigh & Hmed & Htr & Hst & Hputs).
  exists alerted, acc, calls. cbn in Hrows, Hhigh, Hmed, Htr |- *.
  rewrite Htr, <- !app_assoc. repeat split; try assumption.
  apply lookup_insert_eq.
Qed.

(** *** The claims about whole runs and single iterations *)

(** C9: the classifier is defined on every integer and maps the negative
    ones to LOW; a user whose last use lies after the time of the run has
    a negative inactivity and is passed over: the accumulators and the
    world are as before, so there is no report row, no listing entry and
    no state write for that user. *)
Theorem negative_inactivity_is_low :
  (forall d, d < 0 -> calculate_risk d = ("LOW", "🟢")) /\
  (forall d, (calculate_risk d).1 = "LOW" \/ (calculate_risk d).1 = "MEDIUM" \/
             (calculate_risk d).1 = "HIGH") /\
  (forall now u t acc w,
     PasswordLastUsed u = Some (Aware t) \/ PasswordLastUsed u = Some (Naive t) ->
     now < t ->
     days_unused_of now (PasswordLastUsed u) < 0 /\
     review_user E now u acc w = (Return acc, w)).
Proof.
  split; [|split].
  - intros d Hd. apply calculate_risk_low. lia.
  - apply calculate_risk_cases.
  - intros now u t acc w Hlast Hfuture.
    assert (days_unused_of now (PasswordLastUsed u) < 0) as Hneg.
    { destruct Hlast as [-> | ->]; cbn; unfold timedelta_days;
        apply Z.div_lt_upper_bound; unfold US_PER_DAY, US_PER_SECOND; lia. }
    split; [exact Hneg|].
    apply review_user_low. unfold severity_of.
    rewrite calculate_risk_low by lia. reflexivity.
Qed.

(** C6: a user classified LOW is invisible.  In the iteration for that
    user nothing is read, written or appended.  In a run that returns,
    with user names that are unique in the listing, the rows of the
    report and the lines of the two listings are exactly those of the
    alerted users, and the LOW user is not one of them.  In every run,
    whatever its outcome, no write goes to the alert state of the LOW
    user. *)
Theorem low_accounts_are_invisible :
  (forall now u acc w,
     severity_of now u = "LOW" ->
     review_user E now u acc w = (Return acc, w)) /\
  (forall w w' r u,
     let now := clock E (ticks w) in
     let users := default [] (Users (iam_reply E)) in
     lambda_handler E w = (Return r, w') ->
     NoDup (UserName <$> users) ->
     u ∈ users ->
     severity_of now u = "LOW" ->
     exists (alerted : list user) (rows : list (list string))
            (high medium : list string) (calls : list call),
       trace w' = trace w ++ calls /\
       PutObject (csv_key now) (BText (csv_text rows)) ∈ calls /\
       Publish (subject high medium) (message E now high medium) ∈ calls /\
       rows = row_of now <$> alerted /\
       high ++ medium =
         line_of now <$>
           (filter (fun v => severity_of now v = "HIGH") alerted ++
            filter (fun v => severity_of now v <> "HIGH") alerted) /\
       UserName u ∉ UserName <$> alerted) /\
  (forall w w' o u,
     let now := clock E (ticks w) in
     let users := default [] (Users (iam_reply E)) in
     lambda_handler E w = (o, w') ->
     NoDup (UserName <$> users) ->
     u ∈ users ->
     severity_of now u = "LOW" ->
     exists calls,
       trace w' = trace w ++ calls /\
       state_key_of u ∉ (puts calls).*1).
Proof.
  split; [intros now u acc w; apply review_user_low|]. split.
  - intros w w' r u now users Hrun Hnodup Hu Hlow.
    apply completed_run in Hrun
      as (alerted & acc & calls & Hsub & Hsev & Hrows & Hhigh & Hmed & _
          & _ & _ & Htr & _).
    fold now in Hsub, Hsev, Hrows, Hhigh, Hmed, Htr. fold users in Hsub.
    exists alerted, (report_rows acc), (high acc), (medium acc).
    eexists. split; [exact Htr|].
    split; [set_solver|]. split; [set_solver|]. split; [exact Hrows|].
    split; [rewrite Hhigh, Hmed, fmap_app; reflexivity|].
    intros Hin. apply list_elem_of_fmap in Hin as (v & Hname & Hv).
    assert (v ∈ users) as Hvu by (eapply elem_of_sublist; eassumption).
    rewrite (unique_name users u v Hnodup Hu Hvu Hname) in Hlow.
    rewrite Forall_forall in Hsev. exact (Hsev v Hv Hlow).
  - intros w w' o u now users Hrun Hnodup Hu Hlow.
    apply lambda_handler_puts in Hrun as (calls & Htr & Hall).
    fold now users in Hall.
    exists calls. split; [exact Htr|].
    intros Hin. apply list_elem_of_fmap in Hin as (p & Hkey & Hp).
    rewrite Forall_forall in Hall.
    destruct (Hall p Hp) as [Hcsv | (v & Hv & Hsev & Hsave & _)].
    + rewrite <- Hkey in Hcsv. exact (state_key_not_csv_key _ _ Hcsv).
    + rewrite Hsave in Hkey. apply _alert_state_key_inj in Hkey.
      rewrite (unique_name users u v Hnodup Hu Hv Hkey) in Hlow.
      exact (Hsev Hlow).
Qed.

(** C3, as the code has it: a failure while one account is processed
    ends the run.  The accounts before it have been processed; the
    exception leaves [lambda_handler] from the world in which it was
    raised.  When the lookup of the state is refused, or the stored state
    cannot be read, that lookup is the last request of the run: no account
    after it is classified or looked up, and neither the report nor the
    summary is sent. *)
Theorem lookup_failure_aborts_run (w w1 : world) (before after : list user)
    (u : user) (acc1 : accumulators) :
  let now := clock E (ticks w) in
  let key := state_key_of u in
  fault E (length (trace w)) ListUsers = false ->
  Users (iam_reply E) = Some (before ++ u :: after) ->
  for_each_user E now before no_rows (sent ListUsers (tick w)) =
    (Return acc1, w1) ->
  severity_of now u <> "LOW" ->
  (forall e w2,
     review_user E now u acc1 w1 = (Raise e, w2) ->
     lambda_handler E w = (Raise e, w2)) /\
  (fault E (length (trace w1)) (GetObject key) = true ->
   lambda_handler E w = (Raise ClientError, sent (GetObject key) w1)) /\
  (forall b e,
     fault E (length (trace w1)) (GetObject key) = false ->
     bucket w1 !! key = Some b ->
     read_state (fromisoformat E) b = Raise e ->
     lambda_handler E w = (Raise e, sent (GetObject key) w1)).
Proof.
  intros now key Hlist Husers Hbefore Hsev.
  assert (forall e w2,
            review_user E now u acc1 w1 = (Raise e, w2) ->
            lambda_handler E w = (Raise e, w2)) as Hraise
    by (intros e w2 Hstep;
        exact (lambda_handler_raise w w1 w2 before after u acc1 e
                 Hlist Husers Hbefore Hstep)).
  split; [exact Hraise|]. split.
  - intros Hfault. apply Hraise.
    rewrite review_user_not_low by exact Hsev.
    rewrite should_alert_refused by exact Hfault. reflexivity.
  - intros b e Hok Hobj Hbad. apply Hraise.
    rewrite review_user_not_low by exact Hsev.
    rewrite (should_alert_malformed _ _ _ b e) by assumption. reflexivity.
Qed.

(** C4, as the code has it: in a run that returns, the alert state of
    every alerted account, one write per report row and in the order of
    the rows, is written inside the loop, before the report is written
    and before the summary is published; these two requests end the
    run. *)
Theorem state_saved_before_report (w w' : world) (r : response) :
  lambda_handler E w = (Return r, w') ->
  let now := clock E (ticks w) in
  exists (alerted : list user) (acc : accumulators) (calls : list call),
    report_rows acc = row_of now <$> alerted /\
    Forall2 (saves_state_of now) alerted (puts calls) /\
    Forall is_state_call calls /\
    trace w' =
      trace w ++ [ListUsers] ++ calls ++
      [PutObject (csv_key now) (BText (csv_text (report_rows acc)));
       Publish (subject (high acc) (medium acc))
         (message E now (high acc) (medium acc))].
Proof.
  intros Hrun now.
  apply completed_run in Hrun
    as (alerted & acc & calls & _ & _ & Hrows & _ & _ & Hst & Hputs & _ & Htr & _).
  exists alerted, acc, calls. auto.
Qed.

(** C7, as the code has it: a run that returns has written the report
    exactly once, under the key derived from the date of the run, with
    the header row first and the data rows after it, and has published
    exactly one summary, as its last request; a listing that is empty
    shows as the single line None under its heading. *)
Theorem report_and_summary_once (w w' : world) (r : response) :
  lambda_handler E w = (Return r, w') ->
  let now := clock E (ticks w) in
  exists (acc : accumulators) (calls : list call),
    let report :=
      BText ("Username,DaysUnused,Severity" +:+ String CR (String LF "") +:+
             writerows (report_rows acc)) in
    let lines := message_lines E now (high acc) (medium acc) in
    trace w' =
      trace w ++ calls ++
      [Publish (subject (high acc) (medium acc)) (join (String LF "") lines)] /\
    publish_count calls = O /\
    filter (fun p => p.1 = csv_key now) (puts calls) = [(csv_key now, report)] /\
    csv_key now = "access_review_" +:+ date_isoformat now +:+ ".csv" /\
    bucket w' !! csv_key now = Some report /\
    (high acc = [] ->
     exists l1 l2, lines = l1 ++ ["HIGH Risk Users (0):"; "None"; ""] ++ l2) /\
    (medium acc = [] ->
     exists l1 l2, lines = l1 ++ ["MEDIUM Risk Users (0):"; "None"; ""] ++ l2).
Proof.
  intros Hrun now.
  apply completed_run in Hrun
    as (alerted & acc & calls & _ & _ & _ & _ & _ & Hst & _ & _ & Htr & Hobj).
  fold now in Htr, Hobj.
  exists acc, ([ListUsers] ++ calls ++
               [PutObject (csv_key now) (BText (csv_text (report_rows acc)))]).
  cbn zeta. repeat split.
  - rewrite Htr, <- !app_assoc. reflexivity.
  - rewrite !publish_count_app, (state_calls_no_publish calls Hst). reflexivity.
  - rewrite !puts_app, !filter_app, (state_calls_puts now calls Hst). cbn.
    rewrite decide_True by reflexivity. reflexivity.
  - exact Hobj.
  - intros ->. unfold message_lines. cbn [or_none].
    eexists [_; _; _; _], _. reflexivity.
  - intros ->. unfold message_lines. cbn [or_none].
    eexists (_ :: _ :: _ :: _ :: _ :: or_none (high acc) ++ [_]), _.
    cbn. rewrite <- app_assoc. reflexivity.
Qed.

(** C10: in a run that returns, the HIGH and MEDIUM counts shown in the
    subject and in the headings of the body of the notification, and
    those of the returned result, are the numbers of report rows of that
    severity in the report written by the run, and every report row has
    severity MEDIUM or HIGH. *)
Theorem counts_match_report_rows (w w' : world) (r : response) :
  lambda_handler E w = (Return r, w') ->
  let now := clock E (ticks w) in
  exists (rows : list (list string)) (lines : list string) (calls : list call),
    let nh := Z.of_nat (count_severity "HIGH" rows) in
    let nm := Z.of_nat (count_severity "MEDIUM" rows) in
    trace w' =
      trace w ++ calls ++
      [PutObject (csv_key now) (BText (csv_text rows));
       Publish ("🟠 IAM Access Review Summary – " +:+ str nh +:+ " High / " +:+
                str nm +:+ " Medium Risks")
         (join (String LF "") lines)] /\
    ("HIGH Risk Users (" +:+ str nh +:+ "):") ∈ lines /\
    ("MEDIUM Risk Users (" +:+ str nm +:+ "):") ∈ lines /\
    r = {| statusCode := 200;
           resp_body := JObj [("high_count", JInt nh);
                              ("medium_count", JInt nm);
                              ("csv_key", JStr (csv_key now))] |} /\
    Forall (fun row => row_severity row = "MEDIUM" \/ row_severity row = "HIGH")
      rows.
Proof.
  intros Hrun now.
  apply completed_run in Hrun
    as (alerted & acc & calls & _ & Hsev & Hrows & Hhigh & Hmed & _ & _ & ->
        & Htr & _).
  fold now in Hsev, Hrows, Hhigh, Hmed, Htr |- *.
  destruct (alerted_counts now alerted Hsev) as (Hnh & Hnm & Hall).
  assert (len (high acc) = Z.of_nat (count_severity "HIGH" (report_rows acc)))
    as Hh by (unfold len; rewrite Hhigh, Hrows, length_fmap, Hnh; reflexivity).
  assert (len (medium acc) = Z.of_nat (count_severity "MEDIUM" (report_rows acc)))
    as Hm by (unfold len; rewrite Hmed, Hrows, length_fmap, Hnm; reflexivity).
  exists (report_rows acc), (message_lines E now (high acc) (medium acc)),
    ([ListUsers] ++ calls).
  cbn zeta. rewrite <- Hh, <- Hm. repeat split.
  - rewrite Htr, <- !app_assoc. reflexivity.
  - unfold message_lines. set_solver.
  - unfold message_lines. set_solver.
  - rewrite Hrows. exact Hall.
Qed.

(** The text of [isoformat]: a date of 10 characters, the letter T, a
    time of 8 characters, or of 15 with the microseconds, and the offset
    of UTC. *)
Lemma isoformat_shape (now : Z) :
  exists date time,
    isoformat now = date +:+ "T" +:+ time +:+ "+00:00" /\
    String.length date = 10%nat /\
    (String.length time = 8%nat \/ String.length time = 15%nat).
Proof.
  exists (date_isoformat now), (time_isoformat now).
  split; [reflexivity|]. split.
  - unfold date_isoformat. destruct (civil_from_days _) as [[y m] d].
    reflexivity.
  - unfold time_isoformat. cbv zeta. destruct (_ =? 0); [left|right]; reflexivity.
Qed.

(** C8, as the code has it: the alert state of an account is written
    under the key made of the prefix alerts/, the account identifier and
    the suffix .json, and looked up under the same key.  The record has
    the two fields last_alerted, the UTC time of the write in ISO 8601
    format, and severity, the severity handed over; in a run every
    record written carries MEDIUM or HIGH. *)
Theorem alert_state_key_and_record (username severity : string) (w : world) :
  let key := "alerts/" +:+ username +:+ ".json" in
  let now := clock E (ticks w) in
  let record :=
    BJson (JObj [("last_alerted", JStr (isoformat now));
                 ("severity", JStr severity)]) in
  fault E (length (trace w)) (PutObject key record) = false ->
  save_alert_state E username severity w =
    (Return tt, stored key record (tick w)) /\
  bucket (stored key record (tick w)) !! key = Some record /\
  (forall sev w0 r w1,
     should_alert E username sev w0 = (r, w1) ->
     trace w1 = trace w0 ++ [GetObject key]) /\
  (exists date time,
     isoformat now = date +:+ "T" +:+ time +:+ "+00:00" /\
     String.length date = 10%nat /\
     (String.length time = 8%nat \/ String.length time = 15%nat)) /\
  (forall w0 w' r,
     lambda_handler E w0 = (Return r, w') ->
     exists calls,
       trace w' = trace w0 ++ calls /\
       Forall (fun p =>
                 p.1 = csv_key (clock E (ticks w0)) \/
                 exists name t sev,
                   p = ("alerts/" +:+ name +:+ ".json",
                        BJson (JObj [("last_alerted", JStr (isoformat t));
                                     ("severity", JStr sev)])) /\
                   (sev = "MEDIUM" \/ sev = "HIGH"))
         (puts calls)).
Proof.
  intros key now record Hok. repeat split.
  - rewrite save_alert_state_run. fold key now.
    change (json_dumps (alert_record now severity)) with record.
    change (_alert_state_key username) with key.
    rewrite Hok. reflexivity.
  - apply lookup_insert_eq.
  - intros sev w0 r w1 Hrun.
    apply should_alert_effect in Hrun as [Htr _]. exact Htr.
  - apply isoformat_shape.
  - intros w0 w' r Hrun.
    apply completed_run in Hrun
      as (alerted & acc & calls & _ & Hsev & _ & _ & _ & _ & Hputs & _ & Htr & _).
    eexists. split; [exact Htr|].
    rewrite !puts_app. cbn. apply Forall_app. split.
    + clear -Hsev Hputs.
      induction Hputs as [|u p alerted ps [Hkey [t Hrec]] _ IH];
        [constructor|].
      apply Forall_cons in Hsev as [Hu Hsev].
      constructor; [|exact (IH Hsev)].
      right. exists (UserName u), t, (severity_of (clock E (ticks w0)) u).
      split.
      * destruct p as [k b]. cbn in Hkey, Hrec. rewrite Hkey, Hrec.
        reflexivity.
      * destruct (severity_cases (clock E (ticks w0)) u) as [Hs|Hs];
          [contradiction|exact Hs].
    + constructor; [left; reflexivity|constructor].
Qed.

End Properties.

(** ** Further properties of the module *)

Section Coverage.

Context (E : env).

(** *** The decision on a stored state that can be read *)

Lemma should_alert_absent (username severity : string) (w : world) :
  let key := _alert_state_key username in
  fault E (length (trace w)) (GetObject key) = false ->
  bucket w !! key = None ->
  should_alert E username severity w = (Return true, sent (GetObject key) w).
Proof.
  intros key Hok Hnone. run_monad. fold key. rewrite Hok. cbn.
  rewrite Hnone. reflexivity.
Qed.

Lemma should_alert_read (username severity : string) (w : world) (b : body)
    (last : datetime) (previous : json) :
  let key := _alert_state_key username in
  fault E (length (trace w)) (GetObject key) = false ->
  bucket w !! key = Some b ->
  read_state (fromisoformat E) b = Return (last, previous) ->
  should_alert E username severity w =
    if str_ne severity previous then (Return true, sent (GetObject key) w)
    else
      match last with
      | Aware t =>
          (Return (timedelta_days (clock E (ticks w)) t >=? SUPPRESSION_DAYS E),
           tick (sent (GetObject key) w))
      | Naive _ => (Raise TypeError, tick (sent (GetObject key) w))
      end.
Proof.
  intros key Hok Hobj. run_monad. fold key. rewrite Hok. cbn. rewrite Hobj.
  unfold read_state, datetime_fromisoformat.
  destruct b as [data|text]; cbn; [|discriminate].
  destruct (getitem data "last_alerted") as [raw|e1]; cbn; [|discriminate].
  destruct raw; cbn; try discriminate.
  destruct (fromisoformat E s); cbn; [|discriminate].
  destruct (getitem data "severity") as [prev|e2]; cbn; [|discriminate].
  intros [= <- <-].
  destruct (str_ne severity prev); [reflexivity|].
  destruct d; cbn; [|reflexivity].
  destruct (_ >=? _); reflexivity.
Qed.

(** X1: the decision only reads.  Whatever it returns or raises, it has
    sent exactly one request, the lookup of the state of the account, the
    bucket holds what it held, the clock has been read at most once, and
    the exception for a missing key never leaves the function. *)
Theorem should_alert_reads_only (username severity : string) (w : world) :
  trace (should_alert E username severity w).2 =
    trace w ++ [GetObject (_alert_state_key username)] /\
  bucket (should_alert E username severity w).2 = bucket w /\
  (ticks (should_alert E username severity w).2 = ticks w \/
   ticks (should_alert E username severity w).2 = S (ticks w)) /\
  (should_alert E username severity w).1 <> Raise NoSuchKey.
Proof.
  run_monad.
  repeat (case_match; simplify_eq; cbn in *; try done);
    repeat split; auto; try discriminate.
  all: match goal with
       | H : getitem ?d _ = Raise NoSuchKey |- _ =>
           destruct d; cbn in H; try discriminate H;
           repeat (case_match; simplify_eq)
       | H : datetime_fromisoformat _ = Raise NoSuchKey |- _ =>
           unfold datetime_fromisoformat in H;
           repeat (case_match; simplify_eq)
       | H : days_since _ _ = Raise NoSuchKey |- _ =>
           unfold days_since in H; repeat (case_match; simplify_eq)
       | H : json_loads _ = Raise NoSuchKey |- _ =>
           unfold json_loads in H; repeat (case_match; simplify_eq)
       | _ => idtac
       end.
Qed.

(** X2: a state that has been saved is found again.  After
    [save_alert_state] has written the state of an account, provided the
    parser reads the written timestamp back as the instant of the write,
    the next decision for that account is to emit when the computed
    severity differs from the saved one, and otherwise to emit exactly
    when the whole days between the write and the decision reach the
    suppression window. *)
Theorem saved_state_is_found_again (username severity : string) (w : world) :
  let key := _alert_state_key username in
  let t := clock E (ticks w) in
  let record := json_dumps (alert_record t severity) in
  let w1 := stored key record (tick w) in
  fault E (length (trace w)) (PutObject key record) = false ->
  fault E (length (trace w1)) (GetObject key) = false ->
  fromisoformat E (isoformat t) = Some (Aware t) ->
  save_alert_state E username severity w = (Return tt, w1) /\
  (forall computed,
     computed <> severity ->
     should_alert E username computed w1 =
       (Return true, sent (GetObject key) w1)) /\
  should_alert E username severity w1 =
    (Return (bool_decide
               (SUPPRESSION_DAYS E <= (clock E (S (ticks w)) - t) / US_PER_DAY)),
     tick (sent (GetObject key) w1)).
Proof.
  intros key t record w1 Hput Hget Hparse.
  assert (read_state (fromisoformat E) record =
          Return (Aware t, JStr severity)) as Hread.
  { unfold record, json_dumps, alert_record, read_state. cbn.
    rewrite Hparse. reflexivity. }
  assert (bucket w1 !! key = Some record) as Hobj by apply lookup_insert_eq.
  split; [|split].
  - rewrite save_alert_state_run.
    change (_alert_state_key username) with key. fold t. fold record.
    rewrite Hput. reflexivity.
  - intros computed Hne.
    rewrite (should_alert_read username computed w1 record _ _ Hget Hobj Hread).
    cbn. destruct (String.eqb_spec computed severity); [contradiction|].
    reflexivity.
  - rewrite (should_alert_read username severity w1 record _ _ Hget Hobj Hread).
    cbn. rewrite String.eqb_refl. cbn. unfold timedelta_days.
    destruct (Z.geb_spec ((clock E (S (ticks w)) - t) / US_PER_DAY)
                (SUPPRESSION_DAYS E)) as [Hge|Hlt].
    + rewrite bool_decide_eq_true_2 by lia. reflexivity.
    + rewrite bool_decide_eq_false_2 by lia. reflexivity.
Qed.

(** X3: a stored timestamp without UTC offset.  The severities are
    compared before the times are subtracted: with a stored severity that
    differs from the computed one the decision is to emit, and with the
    same severity the subtraction of a naive from an aware datetime raises
    TypeError, after the clock has been read. *)
Theorem naive_timestamp_decision (username severity : string) (w : world)
    (b : body) (t : Z) (previous : json) :
  let key := _alert_state_key username in
  fault E (length (trace w)) (GetObject key) = false ->
  bucket w !! key = Some b ->
  read_state (fromisoformat E) b = Return (Naive t, previous) ->
  (previous <> JStr severity ->
   should_alert E username severity w = (Return true, sent (GetObject key) w)) /\
  (previous = JStr severity ->
   should_alert E username severity w =
     (Raise TypeError, tick (sent (GetObject key) w))).
Proof.
  intros key Hok Hobj Hread.
  rewrite (should_alert_read username severity w b _ _ Hok Hobj Hread).
  split.
  - intros Hne. destruct previous; try reflexivity. cbn.
    destruct (String.eqb_spec severity s); [congruence|reflexivity].
  - intros ->. cbn. rewrite String.eqb_refl. reflexivity.
Qed.

(** X4: once the suppression window of a stored state has expired it
    stays expired.  For the same stored state and the same computed
    severity, a decision to emit at one reading of the clock is a decision
    to emit at every later reading. *)
Theorem expiry_is_monotone (username severity : string) (w1 w2 : world)
    (b : body) (t : Z) :
  let key := _alert_state_key username in
  fault E (length (trace w1)) (GetObject key) = false ->
  fault E (length (trace w2)) (GetObject key) = false ->
  bucket w1 !! key = Some b ->
  bucket w2 !! key = Some b ->
  read_state (fromisoformat E) b = Return (Aware t, JStr severity) ->
  clock E (ticks w1) <= clock E (ticks w2) ->
  (should_alert E username severity w1).1 = Return true ->
  (should_alert E username severity w2).1 = Return true.
Proof.
  intros key Hok1 Hok2 Hobj1 Hobj2 Hread Hlater.
  rewrite (should_alert_read username severity w1 b _ _ Hok1 Hobj1 Hread).
  rewrite (should_alert_read username severity w2 b _ _ Hok2 Hobj2 Hread).
  cbn. rewrite String.eqb_refl. cbn. unfold timedelta_days.
  intros [= Hemit]. f_equal.
  apply Z.geb_le in Hemit. apply Z.geb_le.
  etransitivity; [exact Hemit|].
  apply Z.div_le_mono; [unfold US_PER_DAY, US_PER_SECOND; lia|lia].
Qed.

(** X5: the classification never falls when the inactivity grows. *)
Theorem calculate_risk_is_monotone (d1 d2 : Z) :
  d1 <= d2 ->
  (severity_rank (calculate_risk d1).1 <= severity_rank (calculate_risk d2).1)%nat.
Proof.
  intros Hle.
  destruct (Z.lt_ge_cases d1 90); [rewrite (calculate_risk_low d1) by lia|
    destruct (Z.lt_ge_cases d1 180);
      [rewrite (calculate_risk_medium d1) by lia
      |rewrite (calculate_risk_high d1) by lia]];
  (destruct (Z.lt_ge_cases d2 90); [rewrite (calculate_risk_low d2) by lia|
    destruct (Z.lt_ge_cases d2 180);
      [rewrite (calculate_risk_medium d2) by lia
      |rewrite (calculate_risk_high d2) by lia]]);
  cbn; lia.
Qed.

(** X6: the keys of the bucket do not collide.  Two accounts have the
    same state key only when they have the same name, and no state key is
    the key of a report, whatever the date. *)
Theorem state_keys_do_not_collide :
  (forall name1 name2,
     _alert_state_key name1 = _alert_state_key name2 <-> name1 = name2) /\
  (forall name now, _alert_state_key name <> csv_key now).
Proof.
  split.
  - intros name1 name2. split; [apply _alert_state_key_inj|congruence].
  - apply state_key_not_csv_key.
Qed.

(** X7: when IAM refuses the listing, the run raises at once: nothing is
    looked up or written, and neither report nor summary is sent. *)
Theorem listing_failure_ends_run (w : world) :
  fault E (length (trace w)) ListUsers = true ->
  lambda_handler E w = (Raise ClientError, sent ListUsers (tick w)).
Proof.
  intros Hfault.
  unfold lambda_handler, iam_list_users, datetime_now, request, bind, ret.
  cbn [ticks bucket trace]. rewrite Hfault. reflexivity.
Qed.

(** X8: a reply of IAM without the key Users, or with an empty list, is
    a run over no user: when the two requests are accepted, the report is
    the header row alone, the summary counts 0 and 0, and the result
    carries these counts. *)
Theorem empty_listing_run (w : world) :
  let now := clock E (ticks w) in
  let listed := sent ListUsers (tick w) in
  let report := BText (csv_text []) in
  let reported := stored (csv_key now) report listed in
  Users (iam_reply E) = None \/ Users (iam_reply E) = Some [] ->
  fault E (length (trace w)) ListUsers = false ->
  fault E (length (trace listed)) (PutObject (csv_key now) report) = false ->
  fault E (length (trace reported))
    (Publish (subject [] []) (message E now [] [])) = false ->
  lambda_handler E w =
    (Return (result now [] []),
     sent (Publish (subject [] []) (message E now [] [])) reported) /\
  csv_text [] = "Username,DaysUnused,Severity" +:+ String CR (String LF "") /\
  subject [] [] = "🟠 IAM Access Review Summary – 0 High / 0 Medium Risks".
Proof.
  intros now listed report reported Husers Hlist Hput Hpub.
  split; [|split; reflexivity].
  unfold reported, listed, report, now, sent, tick, stored in *.
  cbn [ticks bucket trace] in *.
  unfold lambda_handler, iam_list_users, s3_put_object, sns_publish,
    datetime_now, request, bind, ret. cbn [ticks bucket trace].
  rewrite Hlist.
  assert (default [] (Users (iam_reply E)) = []) as ->
    by (destruct Husers as [-> | ->]; reflexivity).
  cbn [for_each_user no_rows high medium report_rows ticks bucket trace].
  unfold ret. cbn [high medium report_rows no_rows ticks bucket trace].
  rewrite Hput. cbn [ticks bucket trace]. rewrite Hpub. reflexivity.
Qed.

(** *** What a run writes and what it leaves *)

Lemma only_writes_refl (P : string -> Prop) (m : gmap string body) :
  only_writes P m m.
Proof. intros k. split; auto. Qed.

Lemma only_writes_trans (P : string -> Prop) (m1 m2 m3 : gmap string body) :
  only_writes P m1 m2 -> only_writes P m2 m3 -> only_writes P m1 m3.
Proof.
  intros H12 H23 k. destruct (H12 k) as [Hsame12 Hkeep12].
  destruct (H23 k) as [Hsame23 Hkeep23]. split.
  - intros Hk. rewrite Hsame23, Hsame12 by exact Hk. reflexivity.
  - auto.
Qed.

Lemma only_writes_insert (P : string -> Prop) (m : gmap string body)
    (k : string) (b : body) :
  P k -> only_writes P m (<[k := b]> m).
Proof.
  intros Hk k'. split.
  - intros Hk'. apply lookup_insert_ne. congruence.
  - intros Hsome. destruct (decide (k = k')) as [->|Hne].
    + rewrite lookup_insert_eq. eauto.
    + rewrite lookup_insert_ne by exact Hne. exact Hsome.
Qed.

Lemma only_writes_weaken (P Q : string -> Prop) (m m' : gmap string body) :
  (forall k, P k -> Q k) -> only_writes P m m' -> only_writes Q m m'.
Proof.
  intros HPQ Hw k. destruct (Hw k) as [Hsame Hkeep]. split; [|exact Hkeep].
  intros Hk. apply Hsame. intros HP. exact (Hk (HPQ k HP)).
Qed.

(** An iteration writes at most the state of its user, and only when the
    user is not LOW. *)
Lemma review_user_writes (now : Z) (u : user) (acc : accumulators)
    (w : world) :
  only_writes (fun k => k = state_key_of u /\ severity_of now u <> "LOW")
    (bucket w) (bucket (review_user E now u acc w).2).
Proof.
  destruct (decide (severity_of now u = "LOW")) as [Hlow|Hsev].
  - rewrite review_user_low by exact Hlow. apply only_writes_refl.
  - rewrite review_user_not_low by exact Hsev.
    destruct (should_alert E _ _ w) as [[[|]|e] w1] eqn:Hdecide;
      apply should_alert_effect in Hdecide as [_ Hsame].
    + rewrite save_alert_state_run.
      destruct (fault E _ _); cbn [snd bucket stored sent tick];
        rewrite Hsame.
      * apply only_writes_refl.
      * apply only_writes_insert. split; [reflexivity|exact Hsev].
    + cbn [snd]. rewrite Hsame. apply only_writes_refl.
    + cbn [snd]. rewrite Hsame. apply only_writes_refl.
Qed.

Lemma for_each_user_writes (now : Z) (users : list user) :
  forall (acc : accumulators) (w : world),
    only_writes
      (fun k => exists u, u ∈ users /\ severity_of now u <> "LOW" /\
                          k = state_key_of u)
      (bucket w) (bucket (for_each_user E now users acc w).2).
Proof.
  induction users as [|u rest IH]; intros acc w; [apply only_writes_refl|].
  cbn [for_each_user]. unfold bind.
  pose proof (review_user_writes now u acc w) as Hstep.
  destruct (review_user E now u acc w) as [[acc1|e] w1]; cbn in Hstep |- *.
  - eapply only_writes_trans.
    + eapply only_writes_weaken; [|exact Hstep].
      intros k [-> Hsev]. exists u. split; [left|auto].
    + eapply only_writes_weaken; [|apply IH].
      intros k (v & Hv & Hrest). exists v. split; [right; exact Hv|exact Hrest].
  - eapply only_writes_weaken; [|exact Hstep].
    intros k [-> Hsev]. exists u. split; [left|auto].
Qed.

Lemma lambda_handler_writes (w : world) :
  let now := clock E (ticks w) in
  only_writes
    (fun k => k = csv_key now \/
              exists u, u ∈ default [] (Users (iam_reply E)) /\
                        severity_of now u <> "LOW" /\ k = state_key_of u)
    (bucket w) (bucket (lambda_handler E w).2).
Proof.
  intros now.
  unfold lambda_handler, iam_list_users, s3_put_object, sns_publish,
    datetime_now, request, bind, ret. cbn [ticks bucket trace].
  destruct (fault E (length (trace w)) ListUsers); [apply only_writes_refl|].
  fold now.
  pose proof (for_each_user_writes now (default [] (Users (iam_reply E)))
                no_rows
                {| ticks := S (ticks w); bucket := bucket w;
                   trace := trace w ++ [ListUsers] |}) as Hloop.
  cbn [bucket] in Hloop.
  destruct (for_each_user E now _ no_rows _) as [[acc|e] w1];
    cbn [snd] in Hloop.
  - assert (only_writes
              (fun k => k = csv_key now \/
                 exists u, u ∈ default [] (Users (iam_reply E)) /\
                           severity_of now u <> "LOW" /\ k = state_key_of u)
              (bucket w) (bucket w1)) as Hloop'
      by (eapply only_writes_weaken; [|exact Hloop]; intros k Hk; right; exact Hk).
    destruct (fault E (length (trace w1)) _); [exact Hloop'|].
    cbn [ticks bucket trace].
    destruct (fault E _ _); cbn;
      (eapply only_writes_trans; [exact Hloop'|]);
      apply only_writes_insert; left; reflexivity.
  - cbn. eapply only_writes_weaken; [|exact Hloop]. intros k Hk. right. exact Hk.
Qed.

(** X9: what a run leaves alone.  Whatever the outcome of the run, an
    object of the bucket whose key is neither the key of the report of the
    day nor the state key of a listed user that is not LOW holds after the
    run what it held before, and no key that held an object has lost it:
    the run never deletes. *)
Theorem run_writes_only_its_keys (w : world) (k : string) :
  let now := clock E (ticks w) in
  (k <> csv_key now ->
   (forall u, u ∈ default [] (Users (iam_reply E)) ->
              severity_of now u <> "LOW" -> k <> state_key_of u) ->
   bucket (lambda_handler E w).2 !! k = bucket w !! k) /\
  (is_Some (bucket w !! k) -> is_Some (bucket (lambda_handler E w).2 !! k)).
Proof.
  intros now. destruct (lambda_handler_writes w k) as [Hsame Hkeep].
  split; [|exact Hkeep].
  intros Hcsv Hstate. apply Hsame.
  intros [Hk | (u & Hu & Hsev & Hk)]; [exact (Hcsv Hk)|].
  exact (Hstate u Hu Hsev Hk).
Qed.

(** *** Reported alerts and stored states *)

(** The decision reads the clock at most once. *)
Lemma should_alert_clock (username severity : string) (w w' : world)
    (r : outcome bool) :
  should_alert E username severity w = (r, w') ->
  (ticks w <= ticks w' <= S (ticks w))%nat.
Proof.
  run_monad. intros Hrun.
  repeat (case_match; simplify_eq; cbn in *; try lia).
Qed.

(** An iteration that returns has either appended nothing, or appended
    the alert of its user and stored the state of that user, stamped with
    a reading of the clock taken in the iteration. *)
Lemma review_user_Return_store (now : Z) (u : user) (acc acc' : accumulators)
    (w w' : world) :
  review_user E now u acc w = (Return acc', w') ->
  (ticks w <= ticks w')%nat /\
  (acc' = acc \/
   (severity_of now u <> "LOW" /\
    acc' = append_alert acc (UserName u)
             (days_unused_of now (PasswordLastUsed u))
             (severity_of now u) (emoji_of now u) /\
    exists n,
      (ticks w <= n < ticks w')%nat /\
      bucket w' =
        <[state_key_of u :=
            json_dumps (alert_record (clock E n) (severity_of now u))]>
          (bucket w))).
Proof.
  destruct (decide (severity_of now u = "LOW")) as [Hlow|Hsev].
  - rewrite review_user_low by exact Hlow. intros [= <- <-].
    split; [lia|]. left. reflexivity.
  - rewrite review_user_not_low by exact Hsev.
    destruct (should_alert E _ _ w) as [[[|]|e] w1] eqn:Hdecide;
      [| |discriminate].
    + pose proof (should_alert_clock _ _ _ _ _ Hdecide) as Hclock.
      apply should_alert_effect in Hdecide as [_ Hsame].
      rewrite save_alert_state_run.
      destruct (fault E _ _); [discriminate|]. intros [= <- <-].
      cbn [ticks stored tick]. split; [lia|].
      right. split; [exact Hsev|]. split; [reflexivity|].
      exists (ticks w1). split; [lia|]. cbn. rewrite Hsame. reflexivity.
    + pose proof (should_alert_clock _ _ _ _ _ Hdecide) as Hclock.
      intros [= <- <-]. split; [lia|]. left. reflexivity.
Qed.

(** With names that are unique in the listing, the state stored for an
    alerted user is still in the bucket when the loop ends, and its time
    is a reading of the clock taken during the loop. *)
Lemma for_each_user_recorded (now : Z) (users : list user) :
  forall (acc acc' : accumulators) (w w' : world),
    NoDup (UserName <$> users) ->
    for_each_user E now users acc w = (Return acc', w') ->
    (ticks w <= ticks w')%nat /\
    exists alerted : list user,
      alerted `sublist_of` users /\
      report_rows acc' = report_rows acc ++ (row_of now <$> alerted) /\
      forall u, u ∈ alerted ->
        exists n,
          (ticks w <= n < ticks w')%nat /\
          bucket w' !! state_key_of u =
          Some (json_dumps (alert_record (clock E n) (severity_of now u))).
Proof.
  induction users as [|u rest IH]; intros acc acc' w w' Hnodup.
  - cbn. intros [= <- <-]. split; [lia|]. exists []. rewrite app_nil_r.
    split; [constructor|]. split; [reflexivity|]. intros u Hu. inversion Hu.
  - rewrite fmap_cons in Hnodup. apply NoDup_cons in Hnodup as [Hfresh Hnodup].
    cbn [for_each_user]. unfold bind.
    destruct (review_user E now u acc w) as [[acc1|e] w1] eqn:Hstep;
      [|discriminate].
    intros Hrest.
    pose proof (for_each_user_writes now rest acc1 w1) as Hframe.
    rewrite Hrest in Hframe. cbn [snd] in Hframe.
    apply IH in Hrest as (Hticks & alerted & Hsub & Hrows & Hstored);
      [|exact Hnodup].
    apply review_user_Return_store in Hstep
      as [Hticks1 [->|(Hsev & -> & n & Hn & Hbucket)]].
    + split; [lia|]. exists alerted.
      split; [apply sublist_cons; exact Hsub|]. split; [exact Hrows|].
      intros v Hv. destruct (Hstored v Hv) as (m & Hm & Hobj).
      exists m. split; [lia|exact Hobj].
    + split; [lia|]. exists (u :: alerted).
      split; [apply sublist_skip; exact Hsub|]. split.
      * rewrite Hrows, append_alert_rows, <- app_assoc. reflexivity.
      * intros v Hv. apply elem_of_cons in Hv as [->|Hv].
        -- exists n. split; [lia|].
           destruct (Hframe (state_key_of u)) as [Hsame _].
           rewrite Hsame, Hbucket; [apply lookup_insert_eq|].
           intros (v & Hv & _ & Hkey). apply _alert_state_key_inj in Hkey.
           apply Hfresh. rewrite Hkey. apply list_elem_of_fmap. eauto.
        -- destruct (Hstored v Hv) as (m & Hm & Hobj).
           exists m. split; [lia|exact Hobj].
Qed.

(** X10: every reported alert has its state on record.  In a run that
    returns, with user names that are unique in the listing, the rows of
    the report written are those of a sub-sequence of the listed users,
    and for each of these users the bucket holds, when the run ends, a
    state with the severity shown in the row, and its time is a reading
    of the clock taken during the run, after the reading that gives the
    time of the run. *)
Theorem reported_alerts_are_recorded (w w' : world) (r : response) :
  let now := clock E (ticks w) in
  let users := default [] (Users (iam_reply E)) in
  lambda_handler E w = (Return r, w') ->
  NoDup (UserName <$> users) ->
  exists alerted : list user,
    alerted `sublist_of` users /\
    bucket w' !! csv_key now = Some (BText (csv_text (row_of now <$> alerted))) /\
    forall u, u ∈ alerted ->
      exists n,
        (ticks w < n < ticks w')%nat /\
        bucket w' !! state_key_of u =
        Some (BJson (JObj [("last_alerted", JStr (isoformat (clock E n)));
                           ("severity", JStr (nth 2 (row_of now u) ""))])).
Proof.
  intros now users Hrun Hnodup.
  apply lambda_handler_Return in Hrun as (acc & w1 & Hloop & _ & ->).
  fold now users in Hloop.
  apply for_each_user_recorded in Hloop
    as (_ & alerted & Hsub & Hrows & Hstored); [|exact Hnodup].
  cbn in Hrows. exists alerted. split; [exact Hsub|]. split.
  - cbn. rewrite Hrows. apply lookup_insert_eq.
  - intros u Hu. destruct (Hstored u Hu) as (n & Hn & Hobj).
    cbn [ticks sent tick] in Hn.
    exists n. split; [cbn; lia|]. cbn.
    rewrite lookup_insert_ne by (intros Heq; symmetry in Heq;
                                 exact (state_key_not_csv_key _ _ Heq)).
    exact Hobj.
Qed.

(** X11: the rows of the report follow the listing.  In a run that
    returns, the rows written are a sub-sequence of the rows of the listed
    users, in the order of the listing: no user has more rows than entries
    in the listing, and there are no more rows than users. *)
Theorem report_rows_follow_listing (w w' : world) (r : response) :
  let now := clock E (ticks w) in
  let users := default [] (Users (iam_reply E)) in
  lambda_handler E w = (Return r, w') ->
  exists rows : list (list string),
    bucket w' !! csv_key now = Some (BText (csv_text rows)) /\
    rows `sublist_of` (row_of now <$> users) /\
    (length rows <= length users)%nat.
Proof.
  intros now users Hrun.
  apply completed_run in Hrun
    as (alerted & acc & calls & Hsub & _ & Hrows & _ & _ & _ & _ & _ & _ & Hobj).
  fold now in Hrows, Hobj. fold users in Hsub.
  exists (report_rows acc). split; [exact Hobj|]. rewrite Hrows. split.
  - apply fmap_sublist. exact Hsub.
  - rewrite length_fmap. apply sublist_length. exact Hsub.
Qed.

(** *** Runs in which nothing fails *)

Lemma should_alert_returns (username severity : string) (w : world) :
  fault E (length (trace w)) (GetObject (_alert_state_key username)) = false ->
  states_readable (fromisoformat E) (bucket w) ->
  exists alert w1,
    should_alert E username severity w = (Return alert, w1) /\
    bucket w1 = bucket w.
Proof.
  intros Hok Hreadable.
  destruct (bucket w !! _alert_state_key username) as [b|] eqn:Hobj.
  - destruct (Hreadable username b Hobj) as (t & previous & Hread).
    rewrite (should_alert_read username severity w b _ _ Hok Hobj Hread).
    destruct (str_ne severity previous); eexists _, _; split; reflexivity.
  - rewrite should_alert_absent by assumption.
    eexists _, _. split; reflexivity.
Qed.

Lemma review_user_returns (now : Z) (u : user) (acc : accumulators)
    (w : world) :
  (forall n c, fault E n c = false) ->
  (forall n, fromisoformat E (isoformat (clock E n)) = Some (Aware (clock E n))) ->
  states_readable (fromisoformat E) (bucket w) ->
  exists acc' w',
    review_user E now u acc w = (Return acc', w') /\
    states_readable (fromisoformat E) (bucket w').
Proof.
  intros Hok Hparse Hreadable.
  destruct (decide (severity_of now u = "LOW")) as [Hlow|Hsev].
  - rewrite review_user_low by exact Hlow. eauto.
  - rewrite review_user_not_low by exact Hsev.
    destruct (should_alert_returns (UserName u) (severity_of now u) w
                (Hok _ _) Hreadable) as (alert & w1 & -> & Hsame).
    destruct alert.
    + rewrite save_alert_state_run, Hok. eexists _, _. split; [reflexivity|].
      cbn. rewrite Hsame. intros name b Hobj.
      destruct (decide (_alert_state_key (UserName u) = _alert_state_key name))
        as [Heq|Hne].
      * rewrite Heq, lookup_insert_eq in Hobj. injection Hobj as <-.
        eexists _, _. unfold read_state, json_dumps, alert_record. cbn.
        rewrite Hparse. reflexivity.
      * rewrite lookup_insert_ne in Hobj by exact Hne.
        exact (Hreadable name b Hobj).
    + eexists _, _. split; [reflexivity|]. rewrite Hsame. exact Hreadable.
Qed.

Lemma for_each_user_returns (now : Z) (users : list user) :
  forall (acc : accumulators) (w : world),
    (forall n c, fault E n c = false) ->
    (forall n, fromisoformat E (isoformat (clock E n)) = Some (Aware (clock E n))) ->
    states_readable (fromisoformat E) (bucket w) ->
    exists acc' w',
      for_each_user E now users acc w = (Return acc', w') /\
      states_readable (fromisoformat E) (bucket w').
Proof.
  induction users as [|u rest IH]; intros acc w Hok Hparse Hreadable.
  - cbn. eauto.
  - cbn [for_each_user]. unfold bind.
    destruct (review_user_returns now u acc w Hok Hparse Hreadable)
      as (acc1 & w1 & -> & Hreadable1).
    apply IH; assumption.
Qed.

(** X12: a run in which nothing fails returns.  When no request is
    refused, every alert state in the bucket can be read, and the parser
    reads back the timestamps that the run writes, [lambda_handler]
    returns a result; the alert states of the bucket can still be read
    afterwards, so the same holds for the next run. *)
Theorem run_completes (w : world) :
  (forall n c, fault E n c = false) ->
  (forall n, fromisoformat E (isoformat (clock E n)) = Some (Aware (clock E n))) ->
  states_readable (fromisoformat E) (bucket w) ->
  exists r w',
    lambda_handler E w = (Return r, w') /\
    states_readable (fromisoformat E) (bucket w').
Proof.
  intros Hok Hparse Hreadable.
  unfold lambda_handler, iam_list_users, s3_put_object, sns_publish,
    datetime_now, request, bind, ret. cbn [ticks bucket trace].
  rewrite Hok.
  destruct (for_each_user_returns (clock E (ticks w))
              (default [] (Users (iam_reply E))) no_rows
              {| ticks := S (ticks w); bucket := bucket w;
                 trace := trace w ++ [ListUsers] |} Hok Hparse Hreadable)
    as (acc & w1 & -> & Hreadable1).
  rewrite Hok. cbn [ticks bucket trace]. rewrite Hok.
  eexists _, _. split; [reflexivity|]. cbn [bucket].
  intros name b Hobj.
  rewrite lookup_insert_ne in Hobj
    by (intros Heq; symmetry in Heq; exact (state_key_not_csv_key _ _ Heq)).
  exact (Hreadable1 name b Hobj).
Qed.

(** *** Refused requests *)

Lemma all_accepted_refl (w : world) : all_accepted (fault E) w w.
Proof.
  exists []. rewrite app_nil_r. split; [reflexivity|].
  intros i c Hc. rewrite lookup_nil in Hc. discriminate.
Qed.

Lemma all_accepted_trans (w1 w2 w3 : world) :
  all_accepted (fault E) w1 w2 -> all_accepted (fault E) w2 w3 ->
  all_accepted (fault E) w1 w3.
Proof.
  intros (c12 & Htr12 & H12) (c23 & Htr23 & H23).
  exists (c12 ++ c23). rewrite Htr23, Htr12, <- app_assoc.
  split; [reflexivity|]. intros i c Hc.
  apply lookup_app_Some in Hc as [Hc|[Hlen Hc]].
  - exact (H12 i c Hc).
  - specialize (H23 _ _ Hc). rewrite Htr12, length_app in H23.
    replace (length (trace w1) + i)%nat
      with (length (trace w1) + length c12 + (i - length c12))%nat by lia.
    exact H23.
Qed.

Lemma all_accepted_one (w w' : world) (c : call) :
  fault E (length (trace w)) c = false ->
  trace w' = trace w ++ [c] ->
  all_accepted (fault E) w w'.
Proof.
  intros Hok Htr. exists [c]. split; [exact Htr|].
  intros [|i] c' Hc; [|destruct i; discriminate].
  injection Hc as <-. rewrite Nat.add_0_r. exact Hok.
Qed.

Lemma should_alert_Return_accepted (username severity : string)
    (w w' : world) (alert : bool) :
  should_alert E username severity w = (Return alert, w') ->
  all_accepted (fault E) w w'.
Proof.
  intros Hrun.
  destruct (fault E (length (trace w)) (GetObject (_alert_state_key username)))
    eqn:Hget.
  - rewrite should_alert_refused in Hrun by exact Hget. discriminate.
  - apply should_alert_effect in Hrun as [Htr _].
    eapply all_accepted_one; eassumption.
Qed.

Lemma review_user_Return_accepted (now : Z) (u : user)
    (acc acc' : accumulators) (w w' : world) :
  review_user E now u acc w = (Return acc', w') ->
  all_accepted (fault E) w w'.
Proof.
  destruct (decide (severity_of now u = "LOW")) as [Hlow|Hsev].
  - rewrite review_user_low by exact Hlow. intros [= <- <-].
    apply all_accepted_refl.
  - rewrite review_user_not_low by exact Hsev.
    destruct (should_alert E _ _ w) as [[[|]|e] w1] eqn:Hdecide;
      [| |discriminate];
      apply should_alert_Return_accepted in Hdecide.
    + rewrite save_alert_state_run.
      destruct (fault E _ _) eqn:Hput; [discriminate|]. intros [= <- <-].
      eapply all_accepted_trans; [exact Hdecide|].
      eapply all_accepted_one; [exact Hput|reflexivity].
    + intros [= <- <-]. exact Hdecide.
Qed.

Lemma for_each_user_Return_accepted (now : Z) (users : list user) :
  forall (acc acc' : accumulators) (w w' : world),
    for_each_user E now users acc w = (Return acc', w') ->
    all_accepted (fault E) w w'.
Proof.
  induction users as [|u rest IH]; intros acc acc' w w'.
  - cbn. intros [= <- <-]. apply all_accepted_refl.
  - cbn [for_each_user]. unfold bind.
    destruct (review_user E now u acc w) as [[acc1|e] w1] eqn:Hstep;
      [|discriminate].
    intros Hrest. eapply all_accepted_trans.
    + eapply review_user_Return_accepted. exact Hstep.
    + eapply IH. exact Hrest.
Qed.

(** X13: no refusal is swallowed.  When [lambda_handler] returns a
    result, none of the requests that the run has sent was refused: the
    missing key of a lookup is the only failure that the module handles,
    and a refused request always ends the run with an exception. *)
Theorem returned_run_had_no_refusal (w w' : world) (r : response) :
  lambda_handler E w = (Return r, w') ->
  forall i c,
    (length (trace w) <= i)%nat ->
    trace w' !! i = Some c ->
    fault E i c = false.
Proof.
  intros Hrun.
  assert (all_accepted (fault E) w w') as (calls & Htr & Hall).
  { revert Hrun.
    unfold lambda_handler, iam_list_users, s3_put_object, sns_publish,
      datetime_now, request, bind, ret. cbn [ticks bucket trace].
    destruct (fault E (length (trace w)) ListUsers) eqn:Hlist; [discriminate|].
    destruct (for_each_user E _ _ no_rows _) as [[acc|e] w1] eqn:Hloop;
      [|discriminate].
    apply for_each_user_Return_accepted in Hloop.
    destruct (fault E (length (trace w1)) _) eqn:Hput; [discriminate|].
    cbn [ticks bucket trace].
    match goal with
    | |- context [if fault E ?n ?c then _ else _] =>
        destruct (fault E n c) eqn:Hpub; [discriminate|]
    end.
    intros [= <- <-].
    eapply (all_accepted_trans w
              {| ticks := S (ticks w); bucket := bucket w;
                 trace := trace w ++ [ListUsers] |});
      [eapply all_accepted_one; [exact Hlist|reflexivity]|].
    eapply all_accepted_trans; [exact Hloop|].
    eapply (all_accepted_trans w1
              {| ticks := ticks w1;
                 bucket := <[csv_key (clock E (ticks w)) :=
                               BText (csv_text (report_rows acc))]> (bucket w1);
                 trace := trace w1 ++
                          [PutObject (csv_key (clock E (ticks w)))
                             (BText (csv_text (report_rows acc)))] |});
      [eapply all_accepted_one; [exact Hput|reflexivity]|].
    eapply all_accepted_one; [exact Hpub|reflexivity]. }
  intros i c Hi Hc. rewrite Htr in Hc.
  apply lookup_app_Some in Hc as [Hc|[_ Hc]].
  - apply lookup_lt_Some in Hc. lia.
  - specialize (Hall _ _ Hc).
    replace (length (trace w) + (i - length (trace w)))%nat with i in Hall by lia.
    exact Hall.
Qed.

(** *** The number of requests *)

Lemma review_user_calls (now : Z) (u : user) (acc : accumulators) (w : world) :
  (length (trace w) <= length (trace (review_user E now u acc w).2) <=
   length (trace w) + 2)%nat.
Proof.
  destruct (decide (severity_of now u = "LOW")) as [Hlow|Hsev].
  - rewrite review_user_low by exact Hlow. cbn. lia.
  - rewrite review_user_not_low by exact Hsev.
    destruct (should_alert E _ _ w) as [[[|]|e] w1] eqn:Hdecide;
      apply should_alert_effect in Hdecide as [Htr _].
    + rewrite save_alert_state_run.
      destruct (fault E _ _); cbn [snd trace stored sent tick];
        rewrite Htr, !length_app; cbn; lia.
    + cbn [snd]. rewrite Htr, length_app. cbn. lia.
    + cbn [snd]. rewrite Htr, length_app. cbn. lia.
Qed.

Lemma for_each_user_calls (now : Z) (users : list user) :
  forall (acc : accumulators) (w : world),
    (length (trace w) <= length (trace (for_each_user E now users acc w).2) <=
     length (trace w) + 2 * length users)%nat.
Proof.
  induction users as [|u rest IH]; intros acc w; [cbn; lia|].
  cbn [for_each_user]. unfold bind.
  pose proof (review_user_calls now u acc w) as Hstep.
  destruct (review_user E now u acc w) as [[acc1|e] w1]; cbn [snd] in Hstep |- *.
  - specialize (IH acc1 w1). cbn [length]. lia.
  - cbn [length]. lia.
Qed.

(** X14: the number of requests of a run.  Whatever its outcome, a run
    over [n] listed users sends at least one request, the listing, and at
    most [2 * n + 3]: the listing, a lookup and a write for each user, the
    report and the summary. *)
Theorem run_sends_few_requests (w : world) :
  let n := length (default [] (Users (iam_reply E))) in
  (length (trace w) + 1 <= length (trace (lambda_handler E w).2) <=
   length (trace w) + 2 * n + 3)%nat.
Proof.
  intros n.
  unfold lambda_handler, iam_list_users, s3_put_object, sns_publish,
    datetime_now, request, bind, ret. cbn [ticks bucket trace].
  destruct (fault E (length (trace w)) ListUsers);
    [cbn; rewrite length_app; cbn; lia|].
  pose proof (for_each_user_calls (clock E (ticks w))
                (default [] (Users (iam_reply E))) no_rows
                {| ticks := S (ticks w); bucket := bucket w;
                   trace := trace w ++ [ListUsers] |}) as Hloop.
  cbn [trace] in Hloop. rewrite length_app in Hloop. cbn [length] in Hloop.
  fold n in Hloop.
  destruct (for_each_user E _ _ no_rows _) as [[acc|e] w1]; cbn [snd] in Hloop.
  - destruct (fault E (length (trace w1)) _);
      [cbn; rewrite length_app; cbn; lia|].
    cbn [ticks bucket trace].
    destruct (fault E _ _); cbn; rewrite !length_app; cbn; lia.
  - cbn. lia.
Qed.

(** *** Edges of the suppression window *)

(** X15: a suppression window of zero days, or a negative one, switches
    suppression off: with a stored time that is not after the reading of
    the clock, the decision is to emit whatever the stored severity. *)
Theorem zero_window_never_suppresses (username severity : string) (w : world)
    (b : body) (t : Z) (previous : json) :
  let key := _alert_state_key username in
  fault E (length (trace w)) (GetObject key) = false ->
  bucket w !! key = Some b ->
  read_state (fromisoformat E) b = Return (Aware t, previous) ->
  SUPPRESSION_DAYS E <= 0 ->
  t <= clock E (ticks w) ->
  (should_alert E username severity w).1 = Return true.
Proof.
  intros key Hok Hobj Hread Hwindow Hpast.
  rewrite (should_alert_read username severity w b _ _ Hok Hobj Hread).
  destruct (str_ne severity previous); [reflexivity|].
  cbn. f_equal. apply Z.geb_le. unfold timedelta_days.
  etransitivity; [exact Hwindow|].
  apply Z.div_pos; [lia|unfold US_PER_DAY, US_PER_SECOND; lia].
Qed.

(** X16: a stored time that lies after the reading of the clock.  The
    elapsed days are negative, so with the same severity and a window that
    is not negative the decision is to suppress. *)
Theorem future_state_suppresses (username severity : string) (w : world)
    (b : body) (t : Z) :
  let key := _alert_state_key username in
  fault E (length (trace w)) (GetObject key) = false ->
  bucket w !! key = Some b ->
  read_state (fromisoformat E) b = Return (Aware t, JStr severity) ->
  0 <= SUPPRESSION_DAYS E ->
  clock E (ticks w) < t ->
  (should_alert E username severity w).1 = Return false.
Proof.
  intros key Hok Hobj Hread Hwindow Hfuture.
  rewrite (should_alert_read username severity w b _ _ Hok Hobj Hread).
  cbn. rewrite String.eqb_refl. cbn. f_equal.
  destruct (Z.geb_spec (timedelta_days (clock E (ticks w)) t)
              (SUPPRESSION_DAYS E)) as [Hge|Hlt]; [|reflexivity].
  exfalso. unfold timedelta_days in Hge.
  assert ((clock E (ticks w) - t) / US_PER_DAY < 0)
    by (apply Z.div_lt_upper_bound; unfold US_PER_DAY, US_PER_SECOND; lia).
  lia.
Qed.

(** *** Runs in which every alert is suppressed *)

Lemma for_each_user_quiet (now : Z) (first last : nat) (users : list user) :
  forall (acc : accumulators) (w : world),
    (forall n c, fault E n c = false) ->
    (first <= ticks w)%nat ->
    (ticks w + decisions now users <= last)%nat ->
    (forall u, u ∈ users -> severity_of now u <> "LOW" ->
               recently_alerted E now first last (bucket w) u) ->
    exists w',
      for_each_user E now users acc w = (Return acc, w') /\
      bucket w' = bucket w /\
      puts (trace w') = puts (trace w) /\
      ticks w' = (ticks w + decisions now users)%nat.
Proof.
  induction users as [|u rest IH]; intros acc w Hok Hfirst Hlast Hrecent.
  - cbn. exists w. unfold decisions. cbn. rewrite Nat.add_0_r. auto.
  - cbn [for_each_user]. unfold bind.
    unfold decisions in Hlast |- *. rewrite filter_cons in Hlast |- *.
    destruct (decide (severity_of now u <> "LOW")) as [Hsev|Hlow].
    + destruct (Hrecent u (list_elem_of_here _ _) Hsev)
        as (b & t & Hobj & Hread & Hfresh).
      rewrite review_user_not_low by exact Hsev.
      rewrite (should_alert_read (UserName u) (severity_of now u) w b _ _
                 (Hok _ _) Hobj Hread).
      cbn [str_ne]. rewrite String.eqb_refl. cbn [negb].
      cbn [length] in Hlast.
      destruct (Z.geb_spec (timedelta_days (clock E (ticks w)) t)
                  (SUPPRESSION_DAYS E)) as [Hge|Hlt].
      { exfalso. specialize (Hfresh (ticks w)). unfold timedelta_days in Hge.
        assert ((first <= ticks w < last)%nat) as Hrange by lia.
        specialize (Hfresh Hrange). lia. }
      destruct (IH acc (tick (sent (GetObject (_alert_state_key (UserName u))) w))
                  Hok) as (w' & -> & Hsame & Hputs & Hticks).
      * cbn. lia.
      * cbn. fold (decisions now rest). unfold decisions. lia.
      * intros v Hv Hv'. cbn. apply Hrecent; [right; exact Hv|exact Hv'].
      * exists w'. split; [reflexivity|]. cbn in Hsame, Hputs, Hticks.
        rewrite puts_app in Hputs. cbn in Hputs. rewrite app_nil_r in Hputs.
        split; [exact Hsame|]. split; [exact Hputs|].
        cbn [length]. unfold decisions in Hticks. lia.
    + assert (severity_of now u = "LOW") as Hlow'
        by (destruct (decide (severity_of now u = "LOW")); [assumption|contradiction]).
      rewrite review_user_low by exact Hlow'.
      destruct (IH acc w Hok Hfirst) as (w' & -> & Hrest).
      * unfold decisions. exact Hlast.
      * intros v Hv Hv'. apply Hrecent; [right; exact Hv|exact Hv'].
      * exists w'. split; [reflexivity|exact Hrest].
Qed.

(** X17: a run in which every alert is suppressed.  When no request is
    refused and every listed user that is not LOW has a state stored with
    the computed severity that is less than a suppression window old at
    each reading of the clock that the decisions of the run take (one for
    each listed user that is not LOW, after the reading that gives the
    time of the run), the run returns with the counts 0 and 0, the report
    is the header row alone, no alert state is written, and the bucket
    changes by the report only. *)
Theorem suppressed_run_is_quiet (w : world) :
  let now := clock E (ticks w) in
  let users := default [] (Users (iam_reply E)) in
  (forall n c, fault E n c = false) ->
  (forall u, u ∈ users -> severity_of now u <> "LOW" ->
             recently_alerted E now (S (ticks w))
               (S (ticks w) + decisions now users) (bucket w) u) ->
  exists w',
    lambda_handler E w = (Return (result now [] []), w') /\
    bucket w' = <[csv_key now := BText (csv_text [])]> (bucket w) /\
    puts (trace w') = puts (trace w) ++ [(csv_key now, BText (csv_text []))].
Proof.
  intros now users Hok Hrecent.
  unfold lambda_handler, iam_list_users, s3_put_object, sns_publish,
    datetime_now, request, bind, ret. cbn [ticks bucket trace].
  rewrite Hok. fold now users.
  destruct (for_each_user_quiet now (S (ticks w))
              (S (ticks w) + decisions now users) users no_rows
              {| ticks := S (ticks w); bucket := bucket w;
                 trace := trace w ++ [ListUsers] |} Hok)
    as (w1 & -> & Hsame & Hputs & _);
    [cbn; lia|cbn; lia|exact Hrecent|].
  cbn [bucket trace] in Hsame, Hputs.
  rewrite puts_app in Hputs. cbn in Hputs. rewrite app_nil_r in Hputs.
  rewrite Hok. cbn [ticks bucket trace]. rewrite Hok.
  eexists. split; [reflexivity|]. cbn [bucket trace high medium report_rows no_rows].
  split; [rewrite Hsame; reflexivity|].
  rewrite !puts_app, Hputs. cbn. rewrite app_nil_r. reflexivity.
Qed.

End Coverage.

(** ** The claims on concrete runs *)

Import Sample.

(** The classifier at 45, 120 and 365 days. *)
Lemma calculate_risk_thresholds_witness :
  (calculate_risk 45).1 = "LOW" /\
  (calculate_risk 120).1 = "MEDIUM" /\
  (calculate_risk 365).1 = "HIGH".
Proof.
  split; [|split].
  - apply (calculate_risk_thresholds 45); lia.
  - apply (calculate_risk_thresholds 120); lia.
  - apply (calculate_risk_thresholds 365); lia.
Defined.

(** A user that never used the password. *)
Lemma never_used_is_high_witness :
  days_unused_of T0 (PasswordLastUsed dave) = 999 /\
  (calculate_risk (days_unused_of T0 (PasswordLastUsed dave))).1 = "HIGH".
Proof.
  apply (never_used_is_high T0 dave). reflexivity.
Defined.

(** The decision for an account without state, for one alerted six days
    ago and seven days ago at the same severity, and for one alerted
    yesterday at another severity. *)
Lemma should_alert_decision_witness :
  (should_alert (daily []) "bob" "MEDIUM" (initial [])).1 = Return true /\
  (should_alert (daily []) "bob" "MEDIUM" (bob_alerted 6 "MEDIUM")).1 =
    Return false /\
  (should_alert (daily []) "bob" "MEDIUM" (bob_alerted 7 "MEDIUM")).1 =
    Return true /\
  (should_alert (daily []) "bob" "HIGH" (bob_alerted 1 "MEDIUM")).1 =
    Return true /\
  (should_alert (daily []) "bob" "MEDIUM" (bob_alerted 1 "HIGH")).1 =
    Return true.
Proof.
  split; [|split; [|split; [|split]]].
  - destruct (should_alert_decision (daily []) "bob" "MEDIUM" (initial [])
                eq_refl) as (Hnone & _).
    rewrite Hnone by reflexivity. reflexivity.
  - destruct (should_alert_decision (daily []) "bob" "MEDIUM"
                (bob_alerted 6 "MEDIUM") eq_refl) as (_ & _ & Hsame & _).
    erewrite Hsame by (vm_compute; reflexivity). vm_compute. reflexivity.
  - destruct (should_alert_decision (daily []) "bob" "MEDIUM"
                (bob_alerted 7 "MEDIUM") eq_refl) as (_ & _ & Hsame & _).
    erewrite Hsame by (vm_compute; reflexivity). vm_compute. reflexivity.
  - destruct (should_alert_decision (daily []) "bob" "HIGH"
                (bob_alerted 1 "MEDIUM") eq_refl) as (_ & Hdiff & _).
    erewrite Hdiff; [reflexivity|vm_compute; reflexivity..|discriminate].
  - destruct (should_alert_decision (daily []) "bob" "MEDIUM"
                (bob_alerted 1 "HIGH") eq_refl) as (_ & Hdiff & _).
    erewrite Hdiff; [reflexivity|vm_compute; reflexivity..|discriminate].
Defined.

(** A user whose last use is one second after the time of the run. *)
Lemma negative_inactivity_is_low_witness :
  calculate_risk (-1) = ("LOW", "🟢") /\
  days_unused_of T0 (PasswordLastUsed eve) = -1 /\
  review_user (daily [eve]) T0 eve no_rows (initial []) =
    (Return no_rows, initial []).
Proof.
  destruct (negative_inactivity_is_low (daily [eve])) as (Hneg & _ & Hfuture).
  split; [apply Hneg; lia|]. split; [reflexivity|].
  apply (Hfuture T0 eve (T0 + US_PER_SECOND)); [left; reflexivity|].
  unfold US_PER_SECOND. lia.
Defined.

(** *** Runs that stop at a failed lookup *)

(** C3 fails on the code.  Three users are due for an alert.  The stored
    state of the second is not a JSON document: the run raises, its last
    request is the lookup for that user, and the state of the third user
    is never looked up.  The same happens when the service refuses the
    lookup for the second user. *)
Lemma lookup_failure_counterexample :
  severity_of T0 bob = "MEDIUM" /\
  (lambda_handler (daily [alice; mallory; bob]) corrupt).1 =
    Raise JSONDecodeError /\
  trace (lambda_handler (daily [alice; mallory; bob]) corrupt).2 =
    [ListUsers;
     GetObject "alerts/alice.json";
     PutObject "alerts/alice.json" (alert_state (T0 + US_PER_SECOND) "HIGH");
     GetObject "alerts/mallory.json"] /\
  severity_of T0 mallory = "MEDIUM" /\
  (lambda_handler (sample_env T0 [alice; bob; mallory] bob_refused)
     (initial [])).1 = Raise ClientError /\
  trace (lambda_handler (sample_env T0 [alice; bob; mallory] bob_refused)
           (initial [])).2 =
    [ListUsers;
     GetObject "alerts/alice.json";
     PutObject "alerts/alice.json" (alert_state (T0 + US_PER_SECOND) "HIGH");
     GetObject "alerts/bob.json"].
Proof. vm_compute. repeat split. Qed.

(** The theorem on a run whose second user has a corrupt state, and on
    one where the lookup for the second user is refused. *)
Lemma lookup_failure_aborts_run_witness :
  (exists w1,
     lambda_handler (daily [alice; mallory; bob]) corrupt =
     (Raise JSONDecodeError, sent (GetObject "alerts/mallory.json") w1)) /\
  (exists w1,
     lambda_handler (sample_env T0 [alice; bob; mallory] bob_refused)
       (initial []) =
     (Raise ClientError, sent (GetObject "alerts/bob.json") w1)).
Proof.
  split.
  - destruct (for_each_user (daily [alice; mallory; bob]) T0 [alice] no_rows
                (sent ListUsers (tick corrupt)))
      as [[acc1|e] w1] eqn:Hbefore; [|vm_compute in Hbefore; discriminate].
    exists w1.
    destruct (lookup_failure_aborts_run (daily [alice; mallory; bob])
                corrupt w1 [alice] [bob] mallory acc1 eq_refl eq_refl Hbefore)
      as (_ & _ & Hmalformed); [vm_compute; discriminate|].
    apply (Hmalformed (BText "{")).
    + injection Hbefore as _ <-. reflexivity.
    + injection Hbefore as _ <-. vm_compute. reflexivity.
    + reflexivity.
  - destruct (for_each_user (sample_env T0 [alice; bob; mallory] bob_refused)
                T0 [alice] no_rows (sent ListUsers (tick (initial []))))
      as [[acc1|e] w1] eqn:Hbefore; [|vm_compute in Hbefore; discriminate].
    exists w1.
    destruct (lookup_failure_aborts_run
                (sample_env T0 [alice; bob; mallory] bob_refused)
                (initial []) w1 [alice] [mallory] bob acc1 eq_refl eq_refl
                Hbefore)
      as (_ & Hrefused & _); [vm_compute; discriminate|].
    apply Hrefused. reflexivity.
Defined.

(** *** State writes and the report *)

(** C4 fails on the code.  In a run over one user due for an alert, the
    alert state is written third, before the report and the summary.  When
    a run stops after that write, here because the lookup for the next
    user is refused, neither report nor summary is sent, yet the state
    stays in the bucket: in the run of the following day the decision for
    that user is to suppress, and the writes of the two days together hold
    no report row for the user. *)
Lemma state_saved_before_report_counterexample :
  trace (lambda_handler (daily [alice]) (initial [])).2 =
    [ListUsers;
     GetObject "alerts/alice.json";
     PutObject "alerts/alice.json" (alert_state (T0 + US_PER_SECOND) "HIGH");
     PutObject "access_review_2026-11-04.csv"
       (BText (csv_text [row_of T0 alice]));
     Publish (subject [line_of T0 alice] [])
       (message (daily [alice]) T0 [line_of T0 alice] [])] /\
  (lambda_handler first_day (initial [])).1 = Raise ClientError /\
  trace (lambda_handler first_day (initial [])).2 =
    [ListUsers;
     GetObject "alerts/alice.json";
     PutObject "alerts/alice.json" (alert_state (T0 + US_PER_SECOND) "HIGH");
     GetObject "alerts/bob.json"] /\
  (should_alert second_day "alice" "HIGH"
     (lambda_handler first_day (initial [])).2).1 = Return false /\
  puts (trace (lambda_handler second_day
                 (lambda_handler first_day (initial [])).2).2) =
    [("alerts/alice.json", alert_state (T0 + US_PER_SECOND) "HIGH");
     ("alerts/bob.json", alert_state (T0 + DAY + 4 * US_PER_SECOND) "MEDIUM");
     ("access_review_2026-11-05.csv",
      BText (csv_text [["bob"; "96"; "MEDIUM"]]))].
Proof. vm_compute. repeat split. Qed.

(** The theorem on a run over four users, one of them suppressed and one
    LOW. *)
Lemma state_saved_before_report_witness :
  exists r w',
    lambda_handler (daily [alice; bob; carol; dave]) (bob_alerted 3 "MEDIUM") =
      (Return r, w') /\
    exists (alerted : list user) (acc : accumulators) (calls : list call),
      report_rows acc = row_of T0 <$> alerted /\
      Forall2 (saves_state_of T0) alerted (puts calls) /\
      Forall is_state_call calls /\
      trace w' =
        [ListUsers] ++ calls ++
        [PutObject (csv_key T0) (BText (csv_text (report_rows acc)));
         Publish (subject (high acc) (medium acc))
           (message (daily [alice; bob; carol; dave]) T0 (high acc) (medium acc))].
Proof.
  destruct (lambda_handler (daily [alice; bob; carol; dave])
              (bob_alerted 3 "MEDIUM")) as [[r|e] w'] eqn:Hrun;
    [|vm_compute in Hrun; discriminate].
  exists r, w'. split; [reflexivity|].
  exact (state_saved_before_report _ _ _ _ Hrun).
Defined.

(** *** LOW users *)

(** The theorem on the run over four users, for the LOW user, and on a
    run that stops after the iteration of the LOW user. *)
Lemma low_accounts_are_invisible_witness :
  review_user (daily [carol]) T0 carol no_rows (initial []) =
    (Return no_rows, initial []) /\
  (exists r w',
     lambda_handler (daily [alice; bob; carol; dave]) (bob_alerted 3 "MEDIUM") =
       (Return r, w') /\
     exists (alerted : list user) (rows : list (list string))
            (high medium : list string) (calls : list call),
       trace w' = calls /\
       PutObject (csv_key T0) (BText (csv_text rows)) ∈ calls /\
       Publish (subject high medium)
         (message (daily [alice; bob; carol; dave]) T0 high medium) ∈ calls /\
       rows = row_of T0 <$> alerted /\
       high ++ medium =
         line_of T0 <$>
           (filter (fun v => severity_of T0 v = "HIGH") alerted ++
            filter (fun v => severity_of T0 v <> "HIGH") alerted) /\
       UserName carol ∉ UserName <$> alerted) /\
  (exists calls,
     trace (lambda_handler (sample_env T0 [alice; carol; bob] bob_refused)
              (initial [])).2 = calls /\
     state_key_of carol ∉ (puts calls).*1).
Proof.
  split; [apply (low_accounts_are_invisible (daily [carol])); reflexivity|].
  split.
  - destruct (low_accounts_are_invisible (daily [alice; bob; carol; dave]))
      as (_ & Hrun_low & _).
    destruct (lambda_handler (daily [alice; bob; carol; dave])
                (bob_alerted 3 "MEDIUM")) as [[r|e] w'] eqn:Hrun;
      [|vm_compute in Hrun; discriminate].
    exists r, w'. split; [reflexivity|].
    pose proof (Hrun_low _ _ _ carol Hrun) as Hcarol. cbv zeta in Hcarol.
    assert (NoDup (UserName <$>
                     default [] (Users (iam_reply (daily [alice; bob; carol; dave])))))
      as Hnames.
    { vm_compute. repeat constructor;
        rewrite list_elem_of_In; cbn; intuition discriminate. }
    assert (carol ∈ default [] (Users (iam_reply (daily [alice; bob; carol; dave]))))
      as Hlisted by (cbn; do 2 right; left).
    exact (Hcarol Hnames Hlisted eq_refl).
  - destruct (low_accounts_are_invisible
                (sample_env T0 [alice; carol; bob] bob_refused))
      as (_ & _ & Hany).
    destruct (lambda_handler (sample_env T0 [alice; carol; bob] bob_refused)
                (initial [])) as [o w'] eqn:Hrun.
    pose proof (Hany _ _ _ carol Hrun) as Hcarol. cbv zeta in Hcarol.
    assert (NoDup (UserName <$>
                     default [] (Users (iam_reply
                       (sample_env T0 [alice; carol; bob] bob_refused)))))
      as Hnames.
    { vm_compute. repeat constructor;
        rewrite list_elem_of_In; cbn; intuition discriminate. }
    assert (carol ∈ default [] (Users (iam_reply
              (sample_env T0 [alice; carol; bob] bob_refused))))
      as Hlisted by (cbn; right; left).
    exact (Hcarol Hnames Hlisted eq_refl).
Defined.

(** *** The report and the summary *)

(** C7 fails on the code for runs that do not return.  In the run whose
    second user has a corrupt state the exception leaves the handler:
    no summary is published and nothing is written or stored under the
    key of the report.  In a run in which SNS refuses the summary the
    report is in the bucket, the refused request is the last of the run,
    and the run raises. *)
Lemma report_and_summary_once_counterexample :
  (lambda_handler (daily [alice; mallory; bob]) corrupt).1 =
    Raise JSONDecodeError /\
  publish_count (trace (lambda_handler (daily [alice; mallory; bob]) corrupt).2) =
    O /\
  filter (fun p => p.1 = csv_key T0)
    (puts (trace (lambda_handler (daily [alice; mallory; bob]) corrupt).2)) =
    [] /\
  bucket (lambda_handler (daily [alice; mallory; bob]) corrupt).2 !! csv_key T0 =
    None /\
  (lambda_handler (sample_env T0 [carol] publish_refused) (initial [])).1 =
    Raise ClientError /\
  trace (lambda_handler (sample_env T0 [carol] publish_refused) (initial [])).2 =
    [ListUsers;
     PutObject "access_review_2026-11-04.csv" (BText (csv_text []));
     Publish (subject [] [])
       (message (sample_env T0 [carol] publish_refused) T0 [] [])] /\
  publish_refused 2
    (Publish (subject [] [])
       (message (sample_env T0 [carol] publish_refused) T0 [] [])) = true.
Proof. vm_compute. repeat split. Qed.

(** The theorem on a run in which no user is due for an alert: the
    report is the header row alone, and both listings read None. *)
Lemma report_and_summary_once_witness :
  trace (lambda_handler (daily [carol]) (initial [])).2 =
    [ListUsers;
     PutObject "access_review_2026-11-04.csv"
       (BText ("Username,DaysUnused,Severity" +:+ String CR (String LF "")));
     Publish "🟠 IAM Access Review Summary – 0 High / 0 Medium Risks"
       (join (String LF "")
          ["AWS IAM Access Review – Summary"; "";
           "Run Date: 2026-11-04"; "";
           "HIGH Risk Users (0):"; "None"; "";
           "MEDIUM Risk Users (0):"; "None"; "";
           "Recommended Actions:";
           "- Review unused access";
           "- Remove unnecessary permissions";
           "- Enforce least-privilege policies"; "";
           "A detailed CSV report is available in S3:";
           "Bucket: access-report-bucket";
           "Key: access_review_2026-11-04.csv"])] /\
  exists r w',
    lambda_handler (daily [carol]) (initial []) = (Return r, w') /\
    exists (acc : accumulators) (calls : list call),
      trace w' =
        calls ++
        [Publish (subject (high acc) (medium acc))
           (join (String LF "")
              (message_lines (daily [carol]) T0 (high acc) (medium acc)))] /\
      publish_count calls = O /\
      filter (fun p => p.1 = csv_key T0) (puts calls) =
        [(csv_key T0,
          BText ("Username,DaysUnused,Severity" +:+ String CR (String LF "") +:+
                 writerows (report_rows acc)))] /\
      csv_key T0 = "access_review_" +:+ date_isoformat T0 +:+ ".csv" /\
      bucket w' !! csv_key T0 =
        Some (BText ("Username,DaysUnused,Severity" +:+
                     String CR (String LF "") +:+ writerows (report_rows acc))) /\
      (high acc = [] ->
       exists l1 l2,
         message_lines (daily [carol]) T0 (high acc) (medium acc) =
         l1 ++ ["HIGH Risk Users (0):"; "None"; ""] ++ l2) /\
      (medium acc = [] ->
       exists l1 l2,
         message_lines (daily [carol]) T0 (high acc) (medium acc) =
         l1 ++ ["MEDIUM Risk Users (0):"; "None"; ""] ++ l2).
Proof.
  split; [vm_compute; reflexivity|].
  destruct (lambda_handler (daily [carol]) (initial [])) as [[r|e] w'] eqn:Hrun;
    [|vm_compute in Hrun; discriminate].
  exists r, w'. split; [reflexivity|].
  exact (report_and_summary_once _ _ _ _ Hrun).
Defined.

(** The theorem on the run over four users: two HIGH rows, no MEDIUM
    row. *)
Lemma counts_match_report_rows_witness :
  exists r w',
    lambda_handler (daily [alice; bob; carol; dave]) (bob_alerted 3 "MEDIUM") =
      (Return r, w') /\
    resp_body r =
      JObj [("high_count", JInt 2); ("medium_count", JInt 0);
            ("csv_key", JStr "access_review_2026-11-04.csv")] /\
    exists (rows : list (list string)) (lines : list string) (calls : list call),
      trace w' =
        calls ++
        [PutObject (csv_key T0) (BText (csv_text rows));
         Publish ("🟠 IAM Access Review Summary – " +:+
                  str (Z.of_nat (count_severity "HIGH" rows)) +:+ " High / " +:+
                  str (Z.of_nat (count_severity "MEDIUM" rows)) +:+
                  " Medium Risks")
           (join (String LF "") lines)] /\
      ("HIGH Risk Users (" +:+ str (Z.of_nat (count_severity "HIGH" rows)) +:+
       "):") ∈ lines /\
      ("MEDIUM Risk Users (" +:+ str (Z.of_nat (count_severity "MEDIUM" rows)) +:+
       "):") ∈ lines /\
      r = {| statusCode := 200;
             resp_body :=
               JObj [("high_count", JInt (Z.of_nat (count_severity "HIGH" rows)));
                     ("medium_count",
                      JInt (Z.of_nat (count_severity "MEDIUM" rows)));
                     ("csv_key", JStr (csv_key T0))] |} /\
      Forall (fun row => row_severity row = "MEDIUM" \/ row_severity row = "HIGH")
        rows.
Proof.
  destruct (lambda_handler (daily [alice; bob; carol; dave])
              (bob_alerted 3 "MEDIUM")) as [[r|e] w'] eqn:Hrun;
    [|vm_compute in Hrun; discriminate].
  exists r, w'. split; [reflexivity|]. split.
  - vm_compute in Hrun. injection Hrun as <- _. reflexivity.
  - exact (counts_match_report_rows _ _ _ _ Hrun).
Defined.

(** *** The key and the record of an alert state *)

(** C8 fails on the code: the key of the account alice is not the prefix
    followed by the identifier, it ends in .json, and nothing is stored
    under the key without the suffix. *)
Lemma alert_state_key_counterexample :
  _alert_state_key "alice" <> "alerts/" +:+ "alice" /\
  _alert_state_key "alice" = "alerts/alice.json" /\
  bucket (save_alert_state (daily []) "alice" "HIGH" (initial [])).2
    !! ("alerts/" +:+ "alice") = None /\
  bucket (save_alert_state (daily []) "alice" "HIGH" (initial [])).2
    !! "alerts/alice.json" =
    Some (BJson (JObj [("last_alerted", JStr "2026-11-04T00:00:00+00:00");
                       ("severity", JStr "HIGH")])).
Proof.
  split; [vm_compute; discriminate|]. vm_compute. repeat split.
Qed.

(** The theorem on the state written for alice at the start of the
    run. *)
Lemma alert_state_key_and_record_witness :
  save_alert_state (daily []) "alice" "HIGH" (initial []) =
    (Return tt,
     stored "alerts/alice.json"
       (BJson (JObj [("last_alerted", JStr "2026-11-04T00:00:00+00:00");
                     ("severity", JStr "HIGH")]))
       (tick (initial []))).
Proof.
  destruct (alert_state_key_and_record (daily []) "alice" "HIGH" (initial [])
              eq_refl) as (Hsave & _).
  etransitivity; [exact Hsave|]. vm_compute. reflexivity.
Defined.

(** ** The further properties on concrete runs *)

(** The state of alice is saved as HIGH; one second later a HIGH is
    suppressed and a MEDIUM is emitted. *)
Lemma saved_state_is_found_again_witness :
  (should_alert (daily []) "alice" "HIGH"
     (save_alert_state (daily []) "alice" "HIGH" (initial [])).2).1 =
    Return false /\
  (should_alert (daily []) "alice" "MEDIUM"
     (save_alert_state (daily []) "alice" "HIGH" (initial [])).2).1 =
    Return true.
Proof.
  destruct (saved_state_is_found_again (daily []) "alice" "HIGH" (initial [])
              eq_refl eq_refl) as (Hsave & Hdiff & Hsame);
    [vm_compute; reflexivity|].
  rewrite Hsave. cbn [snd]. split.
  - rewrite Hsame. vm_compute. reflexivity.
  - rewrite Hdiff by discriminate. reflexivity.
Defined.

(** A stored timestamp without offset: HIGH against the stored MEDIUM is
    emitted, MEDIUM against MEDIUM raises. *)
Lemma naive_timestamp_decision_witness :
  (should_alert (daily []) "bob" "HIGH" naive_state).1 = Return true /\
  (should_alert (daily []) "bob" "MEDIUM" naive_state).1 = Raise TypeError.
Proof.
  split.
  - edestruct (naive_timestamp_decision (daily []) "bob" "HIGH" naive_state)
      as [Hdiff _];
      [reflexivity|vm_compute; reflexivity|vm_compute; reflexivity|].
    rewrite Hdiff by discriminate. reflexivity.
  - edestruct (naive_timestamp_decision (daily []) "bob" "MEDIUM" naive_state)
      as [_ Hsame];
      [reflexivity|vm_compute; reflexivity|vm_compute; reflexivity|].
    rewrite Hsame by reflexivity. reflexivity.
Defined.

(** A state of seven days ago: emitted at the start of the run, and
    emitted one second later. *)
Lemma expiry_is_monotone_witness :
  (should_alert (daily []) "bob" "MEDIUM" (tick (bob_alerted 7 "MEDIUM"))).1 =
    Return true.
Proof.
  eapply (expiry_is_monotone (daily []) "bob" "MEDIUM"
            (bob_alerted 7 "MEDIUM") (tick (bob_alerted 7 "MEDIUM"))).
  - reflexivity.
  - reflexivity.
  - vm_compute. reflexivity.
  - vm_compute. reflexivity.
  - vm_compute. reflexivity.
  - vm_compute. intros Hgt. discriminate Hgt.
  - vm_compute. reflexivity.
Defined.

(** 45 days against 200 days. *)
Lemma calculate_risk_is_monotone_witness :
  (severity_rank (calculate_risk 45).1 <=
   severity_rank (calculate_risk 200).1)%nat.
Proof.
  apply (calculate_risk_is_monotone 45 200). lia.
Defined.

(** A run in which IAM refuses the listing. *)
Lemma listing_failure_ends_run_witness :
  lambda_handler (sample_env T0 [alice; bob] iam_down) (bob_alerted 3 "MEDIUM") =
    (Raise ClientError, sent ListUsers (tick (bob_alerted 3 "MEDIUM"))).
Proof.
  apply (listing_failure_ends_run (sample_env T0 [alice; bob] iam_down)).
  reflexivity.
Defined.

(** A run on a reply without the key Users. *)
Lemma empty_listing_run_witness :
  lambda_handler no_users_key (initial []) =
    (Return (result T0 [] []),
     sent (Publish (subject [] []) (message no_users_key T0 [] []))
       (stored (csv_key T0) (BText (csv_text []))
          (sent ListUsers (tick (initial []))))).
Proof.
  apply (empty_listing_run no_users_key (initial [])
           (or_introl eq_refl) eq_refl eq_refl eq_refl).
Defined.

(** The run over four users: the states of the reported users are in the
    bucket. *)
Lemma reported_alerts_are_recorded_witness :
  exists r w',
    lambda_handler (daily [alice; bob; carol; dave]) (bob_alerted 3 "MEDIUM") =
      (Return r, w') /\
    exists alerted : list user,
      alerted `sublist_of` [alice; bob; carol; dave] /\
      bucket w' !! csv_key T0 =
        Some (BText (csv_text (row_of T0 <$> alerted))) /\
      forall u, u ∈ alerted ->
        exists n,
          (0 < n < ticks w')%nat /\
          bucket w' !! state_key_of u =
          Some (BJson (JObj [("last_alerted",
                              JStr (isoformat
                                      (clock (daily [alice; bob; carol; dave]) n)));
                             ("severity", JStr (nth 2 (row_of T0 u) ""))])).
Proof.
  destruct (lambda_handler (daily [alice; bob; carol; dave])
              (bob_alerted 3 "MEDIUM")) as [[r|e] w'] eqn:Hrun;
    [|vm_compute in Hrun; discriminate].
  exists r, w'. split; [reflexivity|].
  pose proof (reported_alerts_are_recorded _ _ _ _ Hrun) as Hrec.
  cbv zeta in Hrec. apply Hrec.
  vm_compute. repeat constructor;
    rewrite list_elem_of_In; cbn; intuition discriminate.
Defined.

(** The run over four users: the rows follow the listing. *)
Lemma report_rows_follow_listing_witness :
  exists r w',
    lambda_handler (daily [alice; bob; carol; dave]) (bob_alerted 3 "MEDIUM") =
      (Return r, w') /\
    exists rows : list (list string),
      bucket w' !! csv_key T0 = Some (BText (csv_text rows)) /\
      rows `sublist_of` (row_of T0 <$> [alice; bob; carol; dave]) /\
      (length rows <= 4)%nat.
Proof.
  destruct (lambda_handler (daily [alice; bob; carol; dave])
              (bob_alerted 3 "MEDIUM")) as [[r|e] w'] eqn:Hrun;
    [|vm_compute in Hrun; discriminate].
  exists r, w'. split; [reflexivity|].
  exact (report_rows_follow_listing _ _ _ _ Hrun).
Defined.

(** A run without faults over a bucket that holds the state of bob. *)
Lemma run_completes_witness :
  exists r w',
    lambda_handler (frozen [alice; bob; carol; dave]) (bob_alerted 3 "MEDIUM") =
      (Return r, w') /\
    states_readable parse_isoformat (bucket w').
Proof.
  apply (run_completes (frozen [alice; bob; carol; dave])
           (bob_alerted 3 "MEDIUM")).
  - intros n c. reflexivity.
  - intros n. vm_compute. reflexivity.
  - intros name b Hobj.
    change (bucket (bob_alerted 3 "MEDIUM"))
      with (<["alerts/bob.json" := alert_state (T0 - 3 * DAY) "MEDIUM"]>
              (∅ : gmap string body)) in Hobj.
    apply lookup_insert_Some in Hobj as [[_ <-]|[_ Hobj]].
    + eexists _, _. vm_compute. reflexivity.
    + rewrite lookup_empty in Hobj. discriminate Hobj.
Defined.

(** A run over alice in an environment that would refuse the lookup for
    bob: the run returns, and its second request, the lookup for alice,
    was not refused. *)
Lemma returned_run_had_no_refusal_witness :
  fault (sample_env T0 [alice] bob_refused) 1 (GetObject "alerts/alice.json") =
    false.
Proof.
  destruct (lambda_handler (sample_env T0 [alice] bob_refused) (initial []))
    as [[r|e] w'] eqn:Hrun; [|vm_compute in Hrun; discriminate].
  apply (returned_run_had_no_refusal _ _ _ _ Hrun 1).
  - cbn. lia.
  - vm_compute in Hrun. injection Hrun as _ <-. reflexivity.
Defined.

(** A window of zero days: a MEDIUM alerted one day ago is emitted
    again. *)
Lemma zero_window_never_suppresses_witness :
  (should_alert
     {| REPORT_BUCKET := "access-report-bucket";
        SNS_TOPIC := "arn:aws:sns:eu-west-1:123456789012:IAMAlertTopic";
        environ_SUPPRESSION_DAYS := Some 0;
        fromisoformat := parse_isoformat;
        clock := fun _ => T0;
        iam_reply := {| Users := None |};
        fault := no_fault |}
     "bob" "MEDIUM" (bob_alerted 1 "MEDIUM")).1 = Return true.
Proof.
  eapply zero_window_never_suppresses.
  - reflexivity.
  - vm_compute. reflexivity.
  - vm_compute. reflexivity.
  - vm_compute. intros Hgt. discriminate Hgt.
  - vm_compute. intros Hgt. discriminate Hgt.
Defined.

(** A state stamped one day ahead of the clock is suppressed. *)
Lemma future_state_suppresses_witness :
  (should_alert (daily []) "bob" "MEDIUM" (bob_alerted (-1) "MEDIUM")).1 =
    Return false.
Proof.
  eapply (future_state_suppresses (daily []) "bob" "MEDIUM").
  - reflexivity.
  - vm_compute. reflexivity.
  - vm_compute. reflexivity.
  - vm_compute. intros Hgt. discriminate Hgt.
  - vm_compute. reflexivity.
Defined.

(** A run, with the clock that advances, over bob, alerted three days
    ago at MEDIUM, and the LOW carol. *)
Lemma suppressed_run_is_quiet_witness :
  exists w',
    lambda_handler (daily [bob; carol]) (bob_alerted 3 "MEDIUM") =
      (Return (result T0 [] []), w') /\
    bucket w' =
      <[csv_key T0 := BText (csv_text [])]> (bucket (bob_alerted 3 "MEDIUM")) /\
    puts (trace w') = [(csv_key T0, BText (csv_text []))].
Proof.
  apply (suppressed_run_is_quiet (daily [bob; carol]) (bob_alerted 3 "MEDIUM")).
  - intros n c. reflexivity.
  - intros u Hu Hsev.
    apply elem_of_cons in Hu as [->|Hu].
    + eexists _, _. split; [vm_compute; reflexivity|].
      split; [vm_compute; reflexivity|].
      intros n Hn.
      assert (n = 1%nat) as -> by (vm_compute in Hn; lia).
      vm_compute. reflexivity.
    + apply elem_of_cons in Hu as [->|Hu]; [|inversion Hu].
      exfalso. apply Hsev. reflexivity.
Defined.
